(** * Zonis server: connection registry, handshake and request dispatch

    A shallow embedding of [zonis/server/server.py] (class [Server]) and the
    properties of its handshake ([parse_identify]), its dispatcher
    ([request], [request_all]) and its administrative [disconnect].

    The server is asynchronous Python over two external collaborators, the
    websocket objects and the [json] codec.  The embedding keeps what the
    class does with them:
    - Python values that travel in packets are the type [json];
    - the websocket objects live in a store indexed by handles, so that two
      registry entries may alias one connection;
    - every method is a computation in a state-and-exception monad whose
      state is the [Server] object together with the store. *)

From Stdlib Require Import List String ZArith Bool Lia.
Import ListNotations.

Set Warnings "-register-all".
Local Open Scope string_scope.
Local Open Scope Z_scope.

(** ** Python values *)

(** What [json.loads] produces (numbers restricted to integers). *)
Inductive json : Type :=
  | JNull
  | JBool (b : bool)
  | JInt (z : Z)
  | JStr (s : string)
  | JList (l : list json)
  | JDict (d : list (string * json)).

(** Python truthiness, as tested by [not x]. *)
Definition truthy (v : json) : bool :=
  match v with
  | JNull => false
  | JBool b => b
  | JInt z => negb (z =? 0)
  | JStr s => negb (s =? EmptyString)%string
  | JList l => match l with [] => false | _ => true end
  | JDict d => match d with [] => false | _ => true end
  end.

(** [v == s] for a [str] right operand: only an equal [str] compares equal. *)
Definition py_eq_str (v : json) (s : string) : bool :=
  match v with
  | JStr t => (t =? s)%string
  | _ => false
  end.

(** [v != s]. *)
Definition py_ne_str (v : json) (s : string) : bool := negb (py_eq_str v s).

Fixpoint assoc_get {A : Type} (k : string) (d : list (string * A)) : option A :=
  match d with
  | [] => None
  | (k', v) :: r => if (k' =? k)%string then Some v else assoc_get k r
  end.

(** ** Hashable values: the keys of [Server._connections] *)

Inductive pykey : Type :=
  | KNone
  | KBool (b : bool)
  | KInt (z : Z)
  | KStr (s : string).

(** [hash()] is defined on [None], [bool], [int] and [str]; [list] and
    [dict] are unhashable. *)
Definition hashable (v : json) : option pykey :=
  match v with
  | JNull => Some KNone
  | JBool b => Some (KBool b)
  | JInt z => Some (KInt z)
  | JStr s => Some (KStr s)
  | JList _ => None
  | JDict _ => None
  end.

Definition key_json (k : pykey) : json :=
  match k with
  | KNone => JNull
  | KBool b => JBool b
  | KInt z => JInt z
  | KStr s => JStr s
  end.

(** Numeric reading of a key: [True == 1] and [False == 0] in Python. *)
Definition key_num (k : pykey) : option Z :=
  match k with
  | KBool true => Some 1
  | KBool false => Some 0
  | KInt z => Some z
  | _ => None
  end.

(** Key equality as a [dict] sees it. *)
Definition key_eqb (a b : pykey) : bool :=
  match a, b with
  | KNone, KNone => true
  | KStr s, KStr t => (s =? t)%string
  | _, _ =>
      match key_num a, key_num b with
      | Some x, Some y => x =? y
      | _, _ => false
      end
  end.

(** ** Python [dict] with insertion order *)

Module PyDict.
Section Dict.
Context {V : Type}.

Definition t : Type := list (pykey * V).

(** [d.get(k)] *)
Fixpoint get (k : pykey) (d : t) : option V :=
  match d with
  | [] => None
  | (k', v) :: r => if key_eqb k' k then Some v else get k r
  end.

(** [k in d] *)
Definition contains (k : pykey) (d : t) : bool :=
  match get k d with Some _ => true | None => false end.

(** [d[k] = v]: an existing key keeps its position and its key object,
    a new key goes last. *)
Fixpoint set (k : pykey) (v : V) (d : t) : t :=
  match d with
  | [] => [(k, v)]
  | (k', v') :: r =>
      if key_eqb k' k then (k', v) :: r else (k', v') :: set k v r
  end.

(** [d.pop(k, None)], result dropped. *)
Fixpoint pop (k : pykey) (d : t) : t :=
  match d with
  | [] => []
  | (k', v') :: r =>
      if key_eqb k' k then pop k r else (k', v') :: pop k r
  end.

(** [d.items()] *)
Definition items (d : t) : list (pykey * V) := d.

Definition keys (d : t) : list pykey := map fst d.

(** No two entries have equal keys: what every Python [dict] satisfies. *)
Fixpoint wf (d : t) : Prop :=
  match d with
  | [] => True
  | (k, _) :: r => get k r = None /\ wf r
  end.
End Dict.
Arguments t : clear implicits.
End PyDict.

(** ** Exceptions *)

(** Modelled from the spec: the exception classes of [zonis/exceptions.py]
    ([BaseZonisException], [DuplicateConnection], [UnknownClient],
    [RequestFailed]), which [server.py] imports; the spec's error taxonomy
    lists them as separate kinds.  The other classes are the interpreter's
    and the transports'.  All of them derive from [Exception], and no Zonis
    class derives from a transport class, so an [except] clause naming one
    class is a test on the class alone. *)
Inductive exn_class : Type :=
  | BaseZonisException
  | DuplicateConnection
  | UnknownClient
  | RequestFailed
  | KeyError
  | TypeError
  | AttributeError
  | JSONDecodeError
  | ConnectionClosedOK
  | ConnectionClosedError
  | WebSocketDisconnect
  | RuntimeError.

Definition exn_class_eqb (a b : exn_class) : bool :=
  match a, b with
  | BaseZonisException, BaseZonisException
  | DuplicateConnection, DuplicateConnection
  | UnknownClient, UnknownClient
  | RequestFailed, RequestFailed
  | KeyError, KeyError
  | TypeError, TypeError
  | AttributeError, AttributeError
  | JSONDecodeError, JSONDecodeError
  | ConnectionClosedOK, ConnectionClosedOK
  | ConnectionClosedError, ConnectionClosedError
  | WebSocketDisconnect, WebSocketDisconnect
  | RuntimeError, RuntimeError => true
  | _, _ => false
  end.

(** An exception object: its class, its [args] and its [__cause__]
    (set by [raise ... from e]). *)
Inductive exn : Type :=
  | Exn (cls : exn_class) (args : list json) (cause : option exn).

Definition exn_cls (e : exn) : exn_class := let (c, _, _) := e in c.
Definition exn_args (e : exn) : list json := let (_, a, _) := e in a.
Definition exn_cause (e : exn) : option exn := let (_, _, c) := e in c.

(** ** The transport *)

(** A text frame.  The codec is external: [json.dumps v] is the frame
    [Encoded v], and a frame that is not JSON is [Garbled]. *)
Inductive text : Type :=
  | Encoded (v : json)
  | Garbled (raw : string).

Definition json_dumps (v : json) : text := Encoded v.

(** What one call of [recv()] / [receive_text()] finds. *)
Inductive inbound : Type :=
  | InText (t : text)
  | InRaise (e : exn).

(** Calls the server made on a websocket object. *)
Inductive call : Type :=
  | CSend (t : text)
  | CSendText (t : text)
  | CClose (code : Z) (reason : string).

(** A websocket object: the frames and failures its peer will deliver, the
    exception its send methods raise once the transport is gone, and the
    calls made on it so far (oldest first). *)
Record websocket : Type := mkWebsocket {
  inbox : list inbound;
  send_error : option exn;
  calls : list call
}.

Definition handle : Type := nat.
Definition store : Type := handle -> websocket.

Definition upd (net : store) (h : handle) (w : websocket) : store :=
  fun h' => if Nat.eqb h' h then w else net h'.

(** ** The server object and the monad of its methods *)

Record Server : Type := mkServer {
  _connections : PyDict.t handle;
  _secret_key : string;
  _override_key : string;
  using_fastapi_websockets : bool
}.

Record state : Type := mkState {
  self : Server;
  net : store
}.

(** How an awaited call ends: with a value, with an exception, or never
    (a [recv] on a connection that stays silent). *)
Inductive outcome (A : Type) : Type :=
  | Ret (a : A)
  | Raise (e : exn)
  | Pending.
Arguments Ret {A} a.
Arguments Raise {A} e.
Arguments Pending {A}.

Definition M (A : Type) : Type := state -> outcome A * state.

Definition ret {A : Type} (a : A) : M A := fun st => (Ret a, st).

Definition raise {A : Type} (e : exn) : M A := fun st => (Raise e, st).

Definition bind {A B : Type} (m : M A) (k : A -> M B) : M B :=
  fun st =>
    match m st with
    | (Ret a, st') => k a st'
    | (Raise e, st') => (Raise e, st')
    | (Pending, st') => (Pending, st')
    end.

(** [try: m except <handled classes>: h]; classes outside [handles]
    propagate. *)
Definition try_except {A : Type} (m : M A) (handles : exn -> bool)
    (h : exn -> M A) : M A :=
  fun st =>
    match m st with
    | (Raise e, st') => if handles e then h e st' else (Raise e, st')
    | r => r
    end.

Declare Scope monad_scope.
Delimit Scope monad_scope with monad.
Notation "x <- m ;; k" := (bind m (fun x => k))
  (at level 61, m at next level, right associativity) : monad_scope.
Notation "m ;; k" := (bind m (fun _ => k))
  (at level 61, right associativity) : monad_scope.
Local Open Scope monad_scope.

Definition get_self : M Server := fun st => (Ret (self st), st).

Definition set_connections (d : PyDict.t handle) : M unit :=
  fun st =>
    (Ret tt,
     mkState (mkServer d (_secret_key (self st)) (_override_key (self st))
                (using_fastapi_websockets (self st)))
             (net st)).

Definition log_call (c : call) (w : websocket) : websocket :=
  mkWebsocket (inbox w) (send_error w) (calls w ++ [c]).

(** [conn.send(content)] and [conn.send_text(content)] *)
Definition ws_send (as_text : bool) (conn : handle) (content : text) : M unit :=
  fun st =>
    let w := net st conn in
    match send_error w with
    | Some e => (Raise e, st)
    | None =>
        let c := if as_text then CSendText content else CSend content in
        (Ret tt, mkState (self st) (upd (net st) conn (log_call c w)))
    end.

(** [conn.recv()] and [conn.receive_text()] *)
Definition ws_recv (conn : handle) : M text :=
  fun st =>
    let w := net st conn in
    match inbox w with
    | [] => (Pending, st)
    | InText t :: r =>
        (Ret t, mkState (self st)
                  (upd (net st) conn (mkWebsocket r (send_error w) (calls w))))
    | InRaise e :: r =>
        (Raise e, mkState (self st)
                    (upd (net st) conn (mkWebsocket r (send_error w) (calls w))))
    end.

(** [websocket.close(code=..., reason=...)] *)
Definition ws_close (conn : handle) (code : Z) (reason : string) : M unit :=
  fun st =>
    (Ret tt,
     mkState (self st)
       (upd (net st) conn (log_call (CClose code reason) (net st conn)))).

(** [json.loads(d)] *)
Definition json_loads (d : text) : M json :=
  match d with
  | Encoded v => ret v
  | Garbled _ => raise (Exn JSONDecodeError [] None)
  end.

(** [v[k]] for a [str] subscript: [KeyError(k)] on a dict without [k],
    [TypeError] on anything that is not a dict. *)
Definition getitem (v : json) (k : string) : M json :=
  match v with
  | JDict d =>
      match assoc_get k d with
      | Some x => ret x
      | None => raise (Exn KeyError [JStr k] None)
      end
  | _ => raise (Exn TypeError [] None)
  end.

(** [v.get(k)]: [None] on a dict without [k]; only dicts have [get]. *)
Definition dict_get (v : json) (k : string) : M json :=
  match v with
  | JDict d =>
      match assoc_get k d with
      | Some x => ret x
      | None => ret JNull
      end
  | _ => raise (Exn AttributeError [] None)
  end.

(** Hashing a value on its way into a [dict] operation. *)
Definition hash_key (v : json) : M pykey :=
  match hashable v with
  | Some k => ret k
  | None => raise (Exn TypeError [] None)
  end.

(** ** The methods of [Server] *)

(** [Packet(identifier=..., type=..., data=...)], a [TypedDict]. *)
Definition Packet (identifier ty data : json) : json :=
  JDict [("identifier", identifier); ("type", ty); ("data", data)].

(** [RequestPacket(route=..., arguments=...)] *)
Definition RequestPacket (route : string) (arguments : list (string * json)) : json :=
  JDict [("route", JStr route); ("arguments", JDict arguments)].

(** [Server.__init__]; [token_hex] is the draw of [secrets.token_hex(64)]. *)
Definition Server_init (using_fastapi_websockets : bool)
    (override_key : option string) (secret_key : string)
    (token_hex : string) : Server :=
  mkServer []
    secret_key
    (match override_key with Some k => k | None => token_hex end)
    using_fastapi_websockets.

(** [Server.disconnect] *)
Definition disconnect (identifier : pykey) : M unit :=
  s <- get_self ;;
  set_connections (PyDict.pop identifier (_connections s)).

(** [Server._send] *)
Definition _send (content : text) (conn : handle) : M unit :=
  s <- get_self ;;
  if using_fastapi_websockets s
  then ws_send true conn content
  else ws_send false conn content.

(** [Server._recv] *)
Definition _recv (conn : handle) : M text :=
  s <- get_self ;;
  if using_fastapi_websockets s
  then
    try_except (ws_recv conn)
      (fun e => exn_class_eqb (exn_cls e) WebSocketDisconnect)
      (fun _ =>
         raise (Exn RequestFailed
                  [JStr "Websocket disconnected while waiting for receive."]
                  None))
  else ws_recv conn.

(** [Server.request] *)
Definition request (route : string) (client_identifier : pykey)
    (kwargs : list (string * json)) : M json :=
  s <- get_self ;;
  match PyDict.get client_identifier (_connections s) with
  | None => raise (Exn UnknownClient [] None)
  | Some conn =>
      _send
        (json_dumps
           (Packet (key_json client_identifier) (JStr "REQUEST")
              (RequestPacket route kwargs)))
        conn ;;
      d <- _recv conn ;;
      packet <- json_loads d ;;
      ty <- getitem packet "type" ;;
      if py_eq_str ty "FAILURE_RESPONSE"
      then data <- getitem packet "data" ;;
           raise (Exn RequestFailed [data] None)
      else getitem packet "data"
  end.

(** A value of the mapping [request_all] returns: a reply's [data] or a
    [RequestFailed] object stored in its place. *)
Inductive any : Type :=
  | Data (v : json)
  | Error (e : exn).

(** One turn of the [for] loop of [request_all]. *)
Definition request_all_turn (route : string) (kwargs : list (string * json))
    (i : pykey) (conn : handle) (results : PyDict.t any) : M (PyDict.t any) :=
  try_except
    (_send
       (json_dumps
          (Packet (key_json i) (JStr "REQUEST") (RequestPacket route kwargs)))
       conn ;;
     d <- _recv conn ;;
     packet <- json_loads d ;;
     ty <- getitem packet "type" ;;
     if py_eq_str ty "FAILURE_RESPONSE"
     then data <- getitem packet "data" ;;
          ret (PyDict.set i (Error (Exn RequestFailed [data] None)) results)
     else data <- getitem packet "data" ;;
          ret (PyDict.set i (Data data) results))
    (fun e => exn_class_eqb (exn_cls e) ConnectionClosedOK)
    (fun _ =>
       ret (PyDict.set i
              (Error (Exn RequestFailed [JStr "Connection Closed"] None))
              results)).

Fixpoint request_all_loop (route : string) (kwargs : list (string * json))
    (todo : list (pykey * handle)) (results : PyDict.t any)
    : M (PyDict.t any) :=
  match todo with
  | [] => ret results
  | (i, conn) :: rest =>
      results' <- request_all_turn route kwargs i conn results ;;
      request_all_loop route kwargs rest results'
  end.

(** [Server.request_all] *)
Definition request_all (route : string) (kwargs : list (string * json))
    : M (PyDict.t any) :=
  s <- get_self ;;
  request_all_loop route kwargs (PyDict.items (_connections s)) [].

Section Handshake.
(** Python's [str()], as the f-strings of [parse_identify] apply it to the
    received packet type. *)
Variable py_str : json -> string.

(** The [try] block of [Server.parse_identify]. *)
Definition parse_identify_try (packet : json) (websocket : handle) : M json :=
  identifier <- dict_get packet "identifier" ;;
  ws_type <- getitem packet "type" ;;
  if py_ne_str ws_type "IDENTIFY"
  then
    ws_close websocket 4101
      (String.append "Expected IDENTIFY, received " (py_str ws_type)) ;;
    raise (Exn BaseZonisException
             [JStr (String.append
                      "Unexpected ws response type, expected IDENTIFY, received "
                      (py_str ws_type))]
             None)
  else
    data <- getitem packet "data" ;;
    secret_key <- getitem data "secret_key" ;;
    s <- get_self ;;
    if py_ne_str secret_key (_secret_key s)
    then
      ws_close websocket 4100 "Invalid secret key." ;;
      raise (Exn BaseZonisException
               [JStr "Client attempted to connect with an incorrect secret key."]
               None)
    else
      data <- getitem packet "data" ;;
      override_key <- dict_get data "override_key" ;;
      k <- hash_key identifier ;;
      s <- get_self ;;
      if (if PyDict.contains k (_connections s)
          then negb (truthy override_key)
               || py_ne_str override_key (_override_key s)
          else false)
      then
        ws_close websocket 4102 "Duplicate identifier on IDENTIFY" ;;
        raise (Exn DuplicateConnection [JStr "Identify failed."] None)
      else
        set_connections (PyDict.set k websocket (_connections s)) ;;
        _send (json_dumps (Packet identifier (JStr "IDENTIFY") JNull))
          websocket ;;
        ret identifier.

(** [Server.parse_identify]: the block under
    [except Exception as e: raise BaseZonisException("Identify failed") from e]. *)
Definition parse_identify (packet : json) (websocket : handle) : M json :=
  try_except (parse_identify_try packet websocket)
    (fun _ => true)
    (fun e => raise (Exn BaseZonisException [JStr "Identify failed"] (Some e))).
End Handshake.

(** ** Shapes of packets, states and statements *)

(** A key with [bool] folded into [int]: two keys are equal for a [dict]
    exactly when they have the same normal form. *)
Definition key_norm (k : pykey) : pykey :=
  match k with
  | KBool true => KInt 1
  | KBool false => KInt 0
  | _ => k
  end.

(** [d.get(k)] on a Python dict, as a value. *)
Definition field_or_none (k : string) (d : list (string * json)) : json :=
  match assoc_get k d with
  | Some x => x
  | None => JNull
  end.

(** [identify_packet p identifier secret_key override_key]: [p] is an
    IDENTIFY packet whose [data] carries [secret_key]; [identifier] and
    [override_key] are [None] when the packet leaves them out. *)
Inductive identify_packet : json -> json -> json -> json -> Prop :=
  | IdentifyPacket (d dd : list (string * json)) (secret : json) :
      assoc_get "type" d = Some (JStr "IDENTIFY") ->
      assoc_get "data" d = Some (JDict dd) ->
      assoc_get "secret_key" dd = Some secret ->
      identify_packet (JDict d)
        (field_or_none "identifier" d) secret (field_or_none "override_key" dd).

(** The registry of a state. *)
Definition registry (st : state) : PyDict.t handle := _connections (self st).

(** [st] after one more call on the websocket [ws]. *)
Definition called (st : state) (ws : handle) (c : call) : state :=
  mkState (self st) (upd (net st) ws (log_call c (net st ws))).

(** [st] after [self._connections[k] = ws]. *)
Definition registered (st : state) (k : pykey) (ws : handle) : state :=
  mkState
    (mkServer (PyDict.set k ws (registry st)) (_secret_key (self st))
       (_override_key (self st)) (using_fastapi_websockets (self st)))
    (net st).

(** The transport call [Server._send] makes for a frame. *)
Definition send_call (s : Server) (content : text) : call :=
  if using_fastapi_websockets s then CSendText content else CSend content.

(** The override test of [parse_identify]: the override credential of the
    packet is missing, falsy, or not the configured one. *)
Definition override_rejected (override_key : json) (s : Server) : bool :=
  negb (truthy override_key) || py_ne_str override_key (_override_key s).

(** The exception objects raised inside the [try] block. *)
Definition unexpected_type_error (py_str : json -> string) (ws_type : json) : exn :=
  Exn BaseZonisException
    [JStr (String.append
             "Unexpected ws response type, expected IDENTIFY, received "
             (py_str ws_type))]
    None.

Definition incorrect_secret_error : exn :=
  Exn BaseZonisException
    [JStr "Client attempted to connect with an incorrect secret key."] None.

Definition duplicate_error : exn :=
  Exn DuplicateConnection [JStr "Identify failed."] None.

(** What [parse_identify] raises for an inner failure [e]. *)
Definition identify_failed (e : exn) : exn :=
  Exn BaseZonisException [JStr "Identify failed"] (Some e).

(** The three failures [parse_identify] tests for, each with the close code
    and reason it sends and the exception it raises inside the [try] block. *)
Inductive expected_failure (py_str : json -> string) (st : state) :
    json -> Z -> string -> exn -> Prop :=
  | UnexpectedType d ty :
      assoc_get "type" d = Some ty ->
      py_ne_str ty "IDENTIFY" = true ->
      expected_failure py_str st (JDict d) 4101
        (String.append "Expected IDENTIFY, received " (py_str ty))
        (unexpected_type_error py_str ty)
  | WrongSecret p identifier secret override_key :
      identify_packet p identifier secret override_key ->
      py_ne_str secret (_secret_key (self st)) = true ->
      expected_failure py_str st p 4100 "Invalid secret key."
        incorrect_secret_error
  | DuplicateIdentifier p identifier secret override_key k :
      identify_packet p identifier secret override_key ->
      py_ne_str secret (_secret_key (self st)) = false ->
      hashable identifier = Some k ->
      PyDict.contains k (registry st) = true ->
      override_rejected override_key (self st) = true ->
      expected_failure py_str st p 4102 "Duplicate identifier on IDENTIFY"
        duplicate_error.

(** An outcome fails with class [c] when the exception raised is of class
    [c] or was raised [from] an exception of class [c]. *)
Definition fails_with {A : Type} (c : exn_class) (r : outcome A) : Prop :=
  exists e,
    r = Raise e /\
    (exn_cls e = c \/
     exists inner, exn_cause e = Some inner /\ exn_cls inner = c).

(** Python's [str()] on the scalars the examples below format. *)
Definition example_str (v : json) : string :=
  match v with
  | JStr s => s
  | JNull => "None"
  | JBool true => "True"
  | JBool false => "False"
  | _ => "..."
  end.

(** A websocket on which nothing has happened yet. *)
Definition fresh_websocket : websocket := mkWebsocket [] None [].

(** An IDENTIFY packet as a client builds it. *)
Definition identify (identifier secret_key : string) (override_key : option string)
    : json :=
  Packet (JStr identifier) (JStr "IDENTIFY")
    (JDict
       (("secret_key", JStr secret_key)
        :: match override_key with
           | Some k => [("override_key", JStr k)]
           | None => []
           end)).

(** The statement of C6 as the claim words it: an IDENTIFY packet with the
    configured secret key and an unregistered identifier always installs the
    identifier for the connection, sends the acknowledgment on it and
    returns the identifier. *)
Definition C6_as_stated : Prop :=
  forall (py_str : json -> string) p identifier secret override_key k ws st,
    identify_packet p identifier secret override_key ->
    py_ne_str secret (_secret_key (self st)) = false ->
    hashable identifier = Some k ->
    PyDict.contains k (registry st) = false ->
    let r := parse_identify py_str p ws st in
    PyDict.get k (registry (snd r)) = Some ws /\
    In (send_call (self st)
          (json_dumps (Packet identifier (JStr "IDENTIFY") JNull)))
       (calls (net (snd r) ws)) /\
    fst r = Ret identifier.

(** The statement of C1 as the claim words it: for a registered identifier,
    a packet with no override key or another one than the configured is
    turned away (registry kept, connection closed with 4102, failure from
    [DuplicateConnection]), and a packet with the configured override key
    takes the entry over. *)
Definition C1_as_stated : Prop :=
  forall (py_str : json -> string) p identifier secret override_key k old ws st,
    identify_packet p identifier secret override_key ->
    hashable identifier = Some k ->
    PyDict.get k (registry st) = Some old ->
    let r := parse_identify py_str p ws st in
    (py_ne_str override_key (_override_key (self st)) = true ->
       registry (snd r) = registry st /\
       calls (net (snd r) ws) =
         (calls (net st ws)
          ++ [CClose 4102 "Duplicate identifier on IDENTIFY"])%list /\
       fails_with DuplicateConnection (fst r)) /\
    (py_eq_str override_key (_override_key (self st)) = true ->
       PyDict.get k (registry (snd r)) = Some ws).

(** The statement of C10 as the claim words it: whatever else the packet
    carries, a registered identifier with the empty override key makes the
    handshake fail from [DuplicateConnection] and keeps the entry. *)
Definition C10_as_stated : Prop :=
  forall (py_str : json -> string) p identifier secret k old ws st,
    identify_packet p identifier secret (JStr EmptyString) ->
    hashable identifier = Some k ->
    PyDict.get k (registry st) = Some old ->
    let r := parse_identify py_str p ws st in
    fails_with DuplicateConnection (fst r) /\
    PyDict.get k (registry (snd r)) = Some old.

(** The statement of C3 as the claim words it: whenever the handshake
    fails, a [close] has been called on the connection. *)
Definition C3_as_stated : Prop :=
  forall (py_str : json -> string) p ws st e st',
    parse_identify py_str p ws st = (Raise e, st') ->
    exists code reason, In (CClose code reason) (calls (net st' ws)).

(** The statement of C4 as the claim words it: an expected failure reaches
    the caller as an exception of its own class, and what reaches the
    caller wrapped in "Identify failed" is no expected failure. *)
Definition C4_as_stated : Prop :=
  forall (py_str : json -> string) p code reason inner ws st,
    expected_failure py_str st p code reason inner ->
    exists e,
      fst (parse_identify py_str p ws st) = Raise e /\
      exn_cls e = exn_cls inner /\
      e <> identify_failed inner.

(** [st] after a receive on [conn] took the head of its inbox, [rest]
    remaining. *)
Definition received (st : state) (conn : handle) (rest : list inbound) : state :=
  mkState (self st)
    (upd (net st) conn
       (mkWebsocket rest (send_error (net st conn)) (calls (net st conn)))).

(** The REQUEST frame [request] and [request_all] write. *)
Definition request_frame (i : pykey) (route : string)
    (kwargs : list (string * json)) : text :=
  json_dumps (Packet (key_json i) (JStr "REQUEST") (RequestPacket route kwargs)).

(** Three registered clients; the peer of ["A"] goes away with [gone] before
    replying, ["B"] and ["C"] reply ["pong"]. *)
Definition three_clients (fastapi : bool) (gone : exn) : state :=
  mkState
    (mkServer [(KStr "A", 0%nat); (KStr "B", 1%nat); (KStr "C", 2%nat)]
       "s3cret" "0verride" fastapi)
    (fun h =>
       match h with
       | O => mkWebsocket [InRaise gone] None []
       | S O =>
           mkWebsocket
             [InText (Encoded (Packet (JStr "B") (JStr "RESPONSE") (JStr "pong")))]
             None []
       | _ =>
           mkWebsocket
             [InText (Encoded (Packet (JStr "C") (JStr "RESPONSE") (JStr "pong")))]
             None []
       end).

(** ** Shapes used by the properties of the dispatcher *)

(** The registry key of a first packet: its identifier ([None] when it has
    none), if the packet is an object and the identifier can be hashed. *)
Definition packet_key (packet : json) : option pykey :=
  match packet with
  | JDict d => hashable (field_or_none "identifier" d)
  | _ => None
  end.

(** A computation is local to the connection [conn] when it leaves the
    server object and every other websocket as they were. *)
Definition local_to {A : Type} (conn : handle) (m : M A) : Prop :=
  forall st,
    self (snd (m st)) = self st /\
    (forall h, h <> conn -> net (snd (m st)) h = net st h).

(** A computation touches only the websocket [conn] when every other
    websocket is left as it was (the server object may change). *)
Definition touches_only {A : Type} (conn : handle) (m : M A) : Prop :=
  forall st h, h <> conn -> net (snd (m st)) h = net st h.

(** What [request_all] stores when a peer has gone away cleanly. *)
Definition connection_closed : any :=
  Error (Exn RequestFailed [JStr "Connection Closed"] None).

(** The value one turn of the loop of [request_all] stores for a websocket
    in the state [w], when it stores one: the websocket refuses the write or
    ends the read with [ConnectionClosedOK], or its next frame is a packet
    with a type and data. *)
Definition answer_of (w : websocket) : option any :=
  match send_error w with
  | Some e =>
      if exn_class_eqb (exn_cls e) ConnectionClosedOK
      then Some connection_closed
      else None
  | None =>
      match inbox w with
      | InText (Encoded (JDict d)) :: _ =>
          match assoc_get "type" d, assoc_get "data" d with
          | Some ty, Some data =>
              Some (if py_eq_str ty "FAILURE_RESPONSE"
                    then Error (Exn RequestFailed [data] None)
                    else Data data)
          | _, _ => None
          end
      | InRaise e :: _ =>
          if exn_class_eqb (exn_cls e) ConnectionClosedOK
          then Some connection_closed
          else None
      | _ => None
      end
  end.

(** The values stored for every entry of a registry, in its order, when every
    connection has one. *)
Fixpoint answers (n : store) (todo : list (pykey * handle))
    : option (PyDict.t any) :=
  match todo with
  | [] => Some []
  | (i, conn) :: rest =>
      match answer_of (n conn), answers n rest with
      | Some v, Some vs => Some ((i, v) :: vs)
      | _, _ => None
      end
  end.

(** Replies [request] cannot read, each with the exception it raises. *)
Inductive malformed_reply : text -> exn -> Prop :=
  | ReplyNotJson raw :
      malformed_reply (Garbled raw) (Exn JSONDecodeError [] None)
  | ReplyNoType d :
      assoc_get "type" d = None ->
      malformed_reply (Encoded (JDict d)) (Exn KeyError [JStr "type"] None)
  | ReplyNoData d ty :
      assoc_get "type" d = Some ty ->
      assoc_get "data" d = None ->
      malformed_reply (Encoded (JDict d)) (Exn KeyError [JStr "data"] None)
  | ReplyNotDict v :
      (forall d, v <> JDict d) ->
      malformed_reply (Encoded v) (Exn TypeError [] None).

(** First packets [parse_identify] cannot read, each with the exception
    raised inside its [try] block. *)
Inductive malformed_identify (s : Server) : json -> exn -> Prop :=
  | IdentifyNotDict v :
      (forall d, v <> JDict d) ->
      malformed_identify s v (Exn AttributeError [] None)
  | IdentifyNoType d :
      assoc_get "type" d = None ->
      malformed_identify s (JDict d) (Exn KeyError [JStr "type"] None)
  | IdentifyNoData d :
      assoc_get "type" d = Some (JStr "IDENTIFY") ->
      assoc_get "data" d = None ->
      malformed_identify s (JDict d) (Exn KeyError [JStr "data"] None)
  | IdentifyDataNotDict d data :
      assoc_get "type" d = Some (JStr "IDENTIFY") ->
      assoc_get "data" d = Some data ->
      (forall dd, data <> JDict dd) ->
      malformed_identify s (JDict d) (Exn TypeError [] None)
  | IdentifyNoSecret d dd :
      assoc_get "type" d = Some (JStr "IDENTIFY") ->
      assoc_get "data" d = Some (JDict dd) ->
      assoc_get "secret_key" dd = None ->
      malformed_identify s (JDict d) (Exn KeyError [JStr "secret_key"] None)
  | IdentifyUnhashable p identifier secret override_key :
      identify_packet p identifier secret override_key ->
      py_ne_str secret (_secret_key s) = false ->
      hashable identifier = None ->
      malformed_identify s p (Exn TypeError [] None).

(** * Properties *)

(** ** Key equality is an equivalence *)

Lemma key_eqb_norm (a b : pykey) :
  key_eqb a b = true <-> key_norm a = key_norm b.
Proof.
  destruct a as [|[|]|x|s], b as [|[|]|y|t];
    cbn [key_eqb key_num key_norm]; split; intro H;
    try reflexivity; try discriminate;
    try (apply Z.eqb_eq in H; subst; reflexivity);
    try (apply String.eqb_eq in H; subst; reflexivity);
    try (injection H as H; apply Z.eqb_eq; assumption);
    try (injection H as H; apply String.eqb_eq; assumption).
Qed.

Lemma key_eqb_refl (a : pykey) : key_eqb a a = true.
Proof. apply key_eqb_norm. reflexivity. Qed.

Lemma key_eqb_sym (a b : pykey) : key_eqb a b = key_eqb b a.
Proof.
  destruct (key_eqb a b) eqn:E1, (key_eqb b a) eqn:E2; try reflexivity.
  - apply key_eqb_norm in E1. symmetry in E1. apply key_eqb_norm in E1. congruence.
  - apply key_eqb_norm in E2. symmetry in E2. apply key_eqb_norm in E2. congruence.
Qed.

Lemma key_eqb_trans (a b c : pykey) :
  key_eqb a b = true -> key_eqb b c = true -> key_eqb a c = true.
Proof.
  rewrite !key_eqb_norm. congruence.
Qed.

(** Equal keys answer every comparison alike. *)
Lemma key_eqb_congr (a b c : pykey) :
  key_eqb a b = true -> key_eqb a c = key_eqb b c.
Proof.
  intro H.
  destruct (key_eqb a c) eqn:E1, (key_eqb b c) eqn:E2; try reflexivity.
  - rewrite key_eqb_sym in H.
    rewrite (key_eqb_trans _ _ _ H E1) in E2. discriminate.
  - rewrite (key_eqb_trans _ _ _ H E2) in E1. discriminate.
Qed.

(** ** The registry as a map *)

Section DictFacts.
Context {V : Type}.
Implicit Types (d : PyDict.t V) (k : pykey) (v : V).

Lemma get_set_same k v d : PyDict.get k (PyDict.set k v d) = Some v.
Proof.
  induction d as [|[k' v'] r IH]; simpl.
  - now rewrite key_eqb_refl.
  - destruct (key_eqb k' k) eqn:E; simpl; rewrite E; auto.
Qed.

Lemma get_set_other k k2 v d :
  key_eqb k k2 = false ->
  PyDict.get k2 (PyDict.set k v d) = PyDict.get k2 d.
Proof.
  intro Hne.
  induction d as [|[k' v'] r IH]; simpl.
  - now rewrite Hne.
  - destruct (key_eqb k' k) eqn:E; simpl.
    + rewrite (key_eqb_congr _ _ _ E), Hne. reflexivity.
    + destruct (key_eqb k' k2); auto.
Qed.

Lemma get_pop_same k d : PyDict.get k (PyDict.pop k d) = None.
Proof.
  induction d as [|[k' v'] r IH]; simpl; auto.
  destruct (key_eqb k' k) eqn:E; simpl; auto.
  now rewrite E.
Qed.

Lemma get_pop_other k k2 d :
  key_eqb k k2 = false ->
  PyDict.get k2 (PyDict.pop k d) = PyDict.get k2 d.
Proof.
  intro Hne.
  induction d as [|[k' v'] r IH]; simpl; auto.
  destruct (key_eqb k' k) eqn:E; simpl.
  - rewrite (key_eqb_congr _ _ _ E), Hne. exact IH.
  - destruct (key_eqb k' k2); auto.
Qed.

Lemma pop_absent k d : PyDict.get k d = None -> PyDict.pop k d = d.
Proof.
  induction d as [|[k' v'] r IH]; simpl; auto.
  destruct (key_eqb k' k); [discriminate|].
  intro H. now rewrite IH.
Qed.

Lemma pop_idempotent k d : PyDict.pop k (PyDict.pop k d) = PyDict.pop k d.
Proof. apply pop_absent, get_pop_same. Qed.

Lemma contains_get k d :
  PyDict.contains k d = true <-> exists v, PyDict.get k d = Some v.
Proof.
  unfold PyDict.contains. destruct (PyDict.get k d).
  - split; eauto.
  - split; [discriminate|]. intros [v H]. discriminate.
Qed.

Lemma contains_false_get k d :
  PyDict.contains k d = false <-> PyDict.get k d = None.
Proof.
  unfold PyDict.contains. destruct (PyDict.get k d); split; congruence.
Qed.

(** The operations keep the keys of a dict distinct. *)
Lemma wf_set k v d : PyDict.wf d -> PyDict.wf (PyDict.set k v d).
Proof.
  induction d as [|[k' v'] r IH]; simpl.
  - auto.
  - intros [Hk Hr]. destruct (key_eqb k' k) eqn:E; simpl.
    + auto.
    + split; auto. rewrite get_set_other; auto.
      now rewrite key_eqb_sym.
Qed.

Lemma wf_pop k d : PyDict.wf d -> PyDict.wf (PyDict.pop k d).
Proof.
  induction d as [|[k' v'] r IH]; simpl; auto.
  intros [Hk Hr]. destruct (key_eqb k' k) eqn:E; simpl; auto.
  split; auto. rewrite get_pop_other; auto.
  now rewrite key_eqb_sym.
Qed.
End DictFacts.

(** ** The handshake, branch by branch *)

Lemma calls_called st ws c :
  calls (net (called st ws c) ws) = (calls (net st ws) ++ [c])%list.
Proof.
  unfold called, upd; simpl. now rewrite Nat.eqb_refl.
Qed.

Lemma net_called_other st ws c h :
  h <> ws -> net (called st ws c) h = net st h.
Proof.
  intro H. unfold called, upd; simpl.
  apply Nat.eqb_neq in H. now rewrite H.
Qed.

Lemma _send_ok content conn st :
  send_error (net st conn) = None ->
  _send content conn st = (Ret tt, called st conn (send_call (self st) content)).
Proof.
  intro H. unfold _send, bind, get_self, send_call, ws_send, called.
  destruct (using_fastapi_websockets (self st)); rewrite H; reflexivity.
Qed.

Lemma _send_fails content conn st e :
  send_error (net st conn) = Some e ->
  _send content conn st = (Raise e, st).
Proof.
  intro H. unfold _send, bind, get_self, ws_send.
  destruct (using_fastapi_websockets (self st)); rewrite H; reflexivity.
Qed.

(** Equations of the monad and of the dict accessors, used to run a method
    one statement at a time. *)
Lemma bind_ret {A B : Type} (a : A) (k : A -> M B) : bind (ret a) k = k a.
Proof. reflexivity. Qed.

Lemma bind_raise {A B : Type} (e : exn) (k : A -> M B) st :
  bind (raise e) k st = (Raise e, st).
Proof. reflexivity. Qed.

Lemma bind_get_self {B : Type} (k : Server -> M B) st :
  bind get_self k st = k (self st) st.
Proof. reflexivity. Qed.

Lemma bind_ws_close {B : Type} ws code reason (k : unit -> M B) st :
  bind (ws_close ws code reason) k st = k tt (called st ws (CClose code reason)).
Proof. reflexivity. Qed.

Lemma bind_set_connections {B : Type} d (k : unit -> M B) st :
  bind (set_connections d) k st =
  k tt (mkState (mkServer d (_secret_key (self st)) (_override_key (self st))
                   (using_fastapi_websockets (self st)))
          (net st)).
Proof. reflexivity. Qed.

Lemma dict_get_dict d k : dict_get (JDict d) k = ret (field_or_none k d).
Proof.
  unfold dict_get, field_or_none. now destruct (assoc_get k d).
Qed.

Lemma getitem_dict d k x :
  assoc_get k d = Some x -> getitem (JDict d) k = ret x.
Proof. intro H. unfold getitem. now rewrite H. Qed.

Lemma hash_key_some v k : hashable v = Some k -> hash_key v = ret k.
Proof. intro H. unfold hash_key. now rewrite H. Qed.

Ltac mstep :=
  first
    [ rewrite bind_ret
    | rewrite bind_get_self
    | rewrite bind_ws_close
    | rewrite bind_set_connections
    | rewrite bind_raise
    | rewrite dict_get_dict ];
  cbv beta.

Section HandshakeFacts.
Variable py_str : json -> string.

(** A first packet of another type: close 4101, then raise. *)
Lemma try_unexpected_type d ty ws st :
  assoc_get "type" d = Some ty ->
  py_ne_str ty "IDENTIFY" = true ->
  parse_identify_try py_str (JDict d) ws st =
    (Raise (unexpected_type_error py_str ty),
     called st ws
       (CClose 4101 (String.append "Expected IDENTIFY, received " (py_str ty)))).
Proof.
  intros Hty Hne. unfold parse_identify_try.
  mstep. mstep. rewrite (getitem_dict _ _ _ Hty). mstep.
  rewrite Hne. mstep. reflexivity.
Qed.

(** The statements an IDENTIFY packet passes before the secret is
    compared. *)
Lemma try_identify p identifier secret override_key ws st :
  identify_packet p identifier secret override_key ->
  parse_identify_try py_str p ws st =
    (if py_ne_str secret (_secret_key (self st))
     then
       ws_close ws 4100 "Invalid secret key." ;;
       raise incorrect_secret_error
     else
       k <- hash_key identifier ;;
       s <- get_self ;;
       if (if PyDict.contains k (_connections s)
           then override_rejected override_key s
           else false)
       then
         ws_close ws 4102 "Duplicate identifier on IDENTIFY" ;;
         raise duplicate_error
       else
         set_connections (PyDict.set k ws (_connections s)) ;;
         _send (json_dumps (Packet identifier (JStr "IDENTIFY") JNull)) ws ;;
         ret identifier) st.
Proof.
  intros [d dd secret' Hty Hdata Hsecret]. unfold parse_identify_try.
  mstep. mstep. rewrite (getitem_dict _ _ _ Hty). mstep.
  change (py_ne_str (JStr "IDENTIFY") "IDENTIFY") with false. cbv iota.
  rewrite (getitem_dict _ _ _ Hdata). mstep.
  rewrite (getitem_dict _ _ _ Hsecret). mstep.
  rewrite bind_get_self.
  destruct (py_ne_str secret' (_secret_key (self st))); [reflexivity|].
  mstep. mstep. mstep. reflexivity.
Qed.

(** A wrong secret key: close 4100, then raise. *)
Lemma try_wrong_secret p identifier secret override_key ws st :
  identify_packet p identifier secret override_key ->
  py_ne_str secret (_secret_key (self st)) = true ->
  parse_identify_try py_str p ws st =
    (Raise incorrect_secret_error,
     called st ws (CClose 4100 "Invalid secret key.")).
Proof.
  intros Hp Hne. rewrite (try_identify _ _ _ _ _ _ Hp), Hne.
  reflexivity.
Qed.

(** A registered identifier without a valid override: close 4102, then
    raise. *)
Lemma try_duplicate p identifier secret override_key k ws st :
  identify_packet p identifier secret override_key ->
  py_ne_str secret (_secret_key (self st)) = false ->
  hashable identifier = Some k ->
  PyDict.contains k (registry st) = true ->
  override_rejected override_key (self st) = true ->
  parse_identify_try py_str p ws st =
    (Raise duplicate_error,
     called st ws (CClose 4102 "Duplicate identifier on IDENTIFY")).
Proof.
  intros Hp Heq Hk Hin Hrej. unfold registry in Hin.
  rewrite (try_identify _ _ _ _ _ _ Hp), Heq.
  rewrite (hash_key_some _ _ Hk). mstep. mstep.
  rewrite Hin, Hrej. reflexivity.
Qed.

(** Otherwise the identifier is installed and the acknowledgment sent. *)
Lemma try_accepted p identifier secret override_key k ws st :
  identify_packet p identifier secret override_key ->
  py_ne_str secret (_secret_key (self st)) = false ->
  hashable identifier = Some k ->
  (if PyDict.contains k (registry st)
   then override_rejected override_key (self st)
   else false) = false ->
  parse_identify_try py_str p ws st =
    bind
      (_send (json_dumps (Packet identifier (JStr "IDENTIFY") JNull)) ws)
      (fun _ => ret identifier)
      (registered st k ws).
Proof.
  intros Hp Heq Hk Hacc. unfold registry in Hacc.
  rewrite (try_identify _ _ _ _ _ _ Hp), Heq.
  rewrite (hash_key_some _ _ Hk). mstep. mstep.
  rewrite Hacc. reflexivity.
Qed.

(** An unhashable identifier stops the handshake at [identifier in ...]. *)
Lemma try_unhashable p identifier secret override_key ws st :
  identify_packet p identifier secret override_key ->
  py_ne_str secret (_secret_key (self st)) = false ->
  hashable identifier = None ->
  parse_identify_try py_str p ws st = (Raise (Exn TypeError [] None), st).
Proof.
  intros Hp Heq Hk.
  rewrite (try_identify _ _ _ _ _ _ Hp), Heq.
  unfold hash_key. rewrite Hk. reflexivity.
Qed.

(** Whatever the [try] block raises reaches the caller wrapped. *)
Lemma parse_identify_raise packet ws st e st' :
  parse_identify_try py_str packet ws st = (Raise e, st') ->
  parse_identify py_str packet ws st = (Raise (identify_failed e), st').
Proof.
  intro H. unfold parse_identify, try_except. now rewrite H.
Qed.

Lemma parse_identify_ret packet ws st v st' :
  parse_identify_try py_str packet ws st = (Ret v, st') ->
  parse_identify py_str packet ws st = (Ret v, st').
Proof.
  intro H. unfold parse_identify, try_except. now rewrite H.
Qed.

(** Every exception leaving [parse_identify] is the wrapper. *)
Lemma parse_identify_raises_wrapped packet ws st e st' :
  parse_identify py_str packet ws st = (Raise e, st') ->
  exists inner,
    e = identify_failed inner /\
    parse_identify_try py_str packet ws st = (Raise inner, st').
Proof.
  unfold parse_identify, try_except.
  destruct (parse_identify_try py_str packet ws st) as [[v|inner|] st1];
    intro H; try discriminate.
  exists inner. unfold raise in H. injection H as <- <-. auto.
Qed.
End HandshakeFacts.

(** ** The handshake: rejected packets *)

Lemma expected_failure_run py_str st p code reason inner ws :
  expected_failure py_str st p code reason inner ->
  parse_identify py_str p ws st =
    (Raise (identify_failed inner), called st ws (CClose code reason)).
Proof.
  intro H. apply parse_identify_raise. destruct H.
  - now apply try_unexpected_type.
  - eapply try_wrong_secret; eauto.
  - eapply try_duplicate; eauto.
Qed.

(** C5. An IDENTIFY packet whose secret key is not the configured one: the
    handshake fails, the server object (and with it the registry) is what
    it was, and the one call made on the connection is
    [close(code=4100, reason="Invalid secret key.")]; no other websocket is
    touched. *)
Theorem wrong_secret_key_closes_4100 (py_str : json -> string)
    (p identifier secret override_key : json) (ws : handle) (st : state) :
  identify_packet p identifier secret override_key ->
  py_ne_str secret (_secret_key (self st)) = true ->
  exists e st',
    parse_identify py_str p ws st = (Raise e, st') /\
    self st' = self st /\
    registry st' = registry st /\
    calls (net st' ws) =
      (calls (net st ws) ++ [CClose 4100 "Invalid secret key."])%list /\
    (forall h, h <> ws -> net st' h = net st h).
Proof.
  intros Hp Hne.
  exists (identify_failed incorrect_secret_error),
         (called st ws (CClose 4100 "Invalid secret key.")).
  split; [|split; [|split; [|split]]].
  - apply parse_identify_raise. eapply try_wrong_secret; eauto.
  - reflexivity.
  - reflexivity.
  - apply calls_called.
  - intros h Hh. now apply net_called_other.
Qed.

Lemma wrong_secret_key_closes_4100_witness :
  let st := mkState (mkServer [(KStr "A", 0%nat)] "s3cret" "0verride" false)
              (fun _ => fresh_websocket) in
  let p := identify "B" "guess" None in
  identify_packet p (JStr "B") (JStr "guess") JNull /\
  py_ne_str (JStr "guess") (_secret_key (self st)) = true /\
  exists e st',
    parse_identify example_str p 1%nat st = (Raise e, st') /\
    self st' = self st /\
    registry st' = registry st /\
    calls (net st' 1%nat) =
      (calls (net st 1%nat) ++ [CClose 4100 "Invalid secret key."])%list /\
    (forall h, h <> 1%nat -> net st' h = net st h).
Proof.
  intros st p.
  assert (Hp : identify_packet p (JStr "B") (JStr "guess") JNull).
  { exact (IdentifyPacket
             [("identifier", JStr "B"); ("type", JStr "IDENTIFY");
              ("data", JDict [("secret_key", JStr "guess")])]
             [("secret_key", JStr "guess")] (JStr "guess")
             eq_refl eq_refl eq_refl). }
  split; [exact Hp|]. split; [reflexivity|].
  exact (wrong_secret_key_closes_4100 example_str p (JStr "B") (JStr "guess")
           JNull 1%nat st Hp eq_refl).
Defined.

(** ** The handshake: accepted packets *)

Lemma registry_registered st k ws :
  registry (registered st k ws) = PyDict.set k ws (registry st).
Proof. reflexivity. Qed.

(** An accepted packet installs the connection whether or not the
    acknowledgment can be written. *)
Lemma accepted_run py_str p identifier secret override_key k ws st :
  identify_packet p identifier secret override_key ->
  py_ne_str secret (_secret_key (self st)) = false ->
  hashable identifier = Some k ->
  (if PyDict.contains k (registry st)
   then override_rejected override_key (self st)
   else false) = false ->
  parse_identify py_str p ws st =
    match send_error (net st ws) with
    | None =>
        (Ret identifier,
         called (registered st k ws) ws
           (send_call (self st)
              (json_dumps (Packet identifier (JStr "IDENTIFY") JNull))))
    | Some e => (Raise (identify_failed e), registered st k ws)
    end.
Proof.
  intros Hp Heq Hk Hacc.
  pose proof (try_accepted py_str _ _ _ _ _ ws st Hp Heq Hk Hacc) as Htry.
  destruct (send_error (net st ws)) as [e|] eqn:Hsend.
  - apply parse_identify_raise. rewrite Htry.
    unfold bind. rewrite (_send_fails _ _ _ e); auto.
  - apply parse_identify_ret. rewrite Htry.
    unfold bind. rewrite _send_ok; auto.
Qed.

(** C6, as stated, fails when the acknowledgment cannot be written: the
    server has no client yet, the IDENTIFY for ["A"] carries the right
    secret, and the [send] of the connection raises
    [ConnectionClosedError].  The identifier is installed, but nothing is
    sent and the handshake raises instead of returning the identifier. *)
Lemma C6_counterexample : ~ C6_as_stated.
Proof.
  intro H.
  pose (st := mkState (mkServer [] "s3cret" "0verride" false)
                (fun _ => mkWebsocket []
                            (Some (Exn ConnectionClosedError [] None)) [])).
  assert (Hp : identify_packet (identify "A" "s3cret" None)
                 (JStr "A") (JStr "s3cret") JNull).
  { exact (IdentifyPacket
             [("identifier", JStr "A"); ("type", JStr "IDENTIFY");
              ("data", JDict [("secret_key", JStr "s3cret")])]
             [("secret_key", JStr "s3cret")] (JStr "s3cret")
             eq_refl eq_refl eq_refl). }
  destruct (H example_str _ _ _ _ (KStr "A") 1%nat st Hp eq_refl eq_refl
              eq_refl) as [_ [Hsent Hret]].
  vm_compute in Hret. discriminate.
Qed.

(** C6, amended.  An IDENTIFY packet with the configured secret key and an
    identifier that is not registered, on a connection that accepts the
    write: the handshake returns the identifier, the registry is the old one
    with the
    identifier bound to this connection (every other key keeps its entry),
    and the one call made on the connection sends the acknowledgment
    [Packet(identifier, "IDENTIFY", None)]. *)
Theorem valid_identify_installs_and_acknowledges (py_str : json -> string)
    (p identifier secret override_key : json) (k : pykey) (ws : handle)
    (st : state) :
  identify_packet p identifier secret override_key ->
  py_ne_str secret (_secret_key (self st)) = false ->
  hashable identifier = Some k ->
  PyDict.contains k (registry st) = false ->
  send_error (net st ws) = None ->
  exists st',
    parse_identify py_str p ws st = (Ret identifier, st') /\
    registry st' = PyDict.set k ws (registry st) /\
    PyDict.get k (registry st') = Some ws /\
    (forall k2, key_eqb k k2 = false ->
                PyDict.get k2 (registry st') = PyDict.get k2 (registry st)) /\
    calls (net st' ws) =
      (calls (net st ws)
       ++ [send_call (self st)
             (json_dumps (Packet identifier (JStr "IDENTIFY") JNull))])%list /\
    (forall h, h <> ws -> net st' h = net st h).
Proof.
  intros Hp Heq Hk Hnew Hsend.
  eexists. split.
  - rewrite (accepted_run py_str _ _ _ _ _ ws st Hp Heq Hk).
    + rewrite Hsend. reflexivity.
    + now rewrite Hnew.
  - split; [reflexivity|]. split; [|split; [|split]].
    + apply get_set_same.
    + intros k2 Hk2. now apply get_set_other.
    + apply (calls_called (registered st k ws)).
    + intros h Hh. now apply (net_called_other (registered st k ws)).
Qed.

Lemma valid_identify_installs_and_acknowledges_witness :
  let st := mkState (mkServer [(KStr "A", 0%nat)] "s3cret" "0verride" false)
              (fun _ => fresh_websocket) in
  let p := identify "B" "s3cret" None in
  exists st',
    parse_identify example_str p 1%nat st = (Ret (JStr "B"), st') /\
    registry st' = PyDict.set (KStr "B") 1%nat (registry st) /\
    PyDict.get (KStr "B") (registry st') = Some 1%nat /\
    (forall k2, key_eqb (KStr "B") k2 = false ->
                PyDict.get k2 (registry st') = PyDict.get k2 (registry st)) /\
    calls (net st' 1%nat) =
      (calls (net st 1%nat)
       ++ [send_call (self st)
             (json_dumps (Packet (JStr "B") (JStr "IDENTIFY") JNull))])%list /\
    (forall h, h <> 1%nat -> net st' h = net st h).
Proof.
  intros st p.
  refine (valid_identify_installs_and_acknowledges example_str p (JStr "B")
            (JStr "s3cret") JNull (KStr "B") 1%nat st _ eq_refl eq_refl
            eq_refl eq_refl).
  exact (IdentifyPacket
           [("identifier", JStr "B"); ("type", JStr "IDENTIFY");
            ("data", JDict [("secret_key", JStr "s3cret")])]
           [("secret_key", JStr "s3cret")] (JStr "s3cret")
           eq_refl eq_refl eq_refl).
Defined.

(** The override test passes exactly for a non-empty string equal to the
    configured override key. *)
Lemma override_accepted_iff override_key s :
  override_rejected override_key s = false <->
  override_key = JStr (_override_key s) /\ _override_key s <> EmptyString.
Proof.
  unfold override_rejected, py_ne_str. split.
  - intro H. apply orb_false_elim in H as [Ht He].
    apply negb_false_iff in Ht, He.
    destruct override_key; simpl in He; try discriminate.
    apply String.eqb_eq in He. subst s0. split; [reflexivity|].
    intro Hempty. simpl in Ht. rewrite Hempty in Ht. discriminate.
  - intros [-> Hne]. simpl. rewrite String.eqb_refl.
    apply String.eqb_neq in Hne. now rewrite Hne.
Qed.

(** C1, as stated, fails: a server configured with the empty override key,
    identifier ["A"] registered for connection 0, and a second IDENTIFY for
    ["A"] on connection 1 carrying that same (empty) override key and the
    right secret.  [not override_key] holds, so the packet is turned away
    and ["A"] still belongs to connection 0. *)
Lemma C1_counterexample : ~ C1_as_stated.
Proof.
  intro H.
  pose (st := mkState (mkServer [(KStr "A", 0%nat)] "s3cret" EmptyString false)
                (fun _ => fresh_websocket)).
  assert (Hp : identify_packet (identify "A" "s3cret" (Some EmptyString))
                 (JStr "A") (JStr "s3cret") (JStr EmptyString)).
  { exact (IdentifyPacket
             [("identifier", JStr "A"); ("type", JStr "IDENTIFY");
              ("data", JDict [("secret_key", JStr "s3cret");
                              ("override_key", JStr EmptyString)])]
             [("secret_key", JStr "s3cret"); ("override_key", JStr EmptyString)]
             (JStr "s3cret") eq_refl eq_refl eq_refl). }
  destruct (H example_str _ _ _ _ (KStr "A") 0%nat 1%nat st Hp eq_refl eq_refl)
    as [_ Htake].
  specialize (Htake eq_refl). vm_compute in Htake. discriminate.
Qed.

(** C1, amended.  For an IDENTIFY packet with the configured secret key whose
    identifier is registered: if the override key is missing, falsy (the
    empty string included) or not the configured one, the state is the old
    one but for [close(code=4102, ...)] on the new connection, and the
    handshake raises "Identify failed" from [DuplicateConnection]; if it is
    the configured override key and not empty, the registry entry of the
    identifier is the new connection when the handshake ends. *)
Theorem duplicate_identify_needs_nonempty_override (py_str : json -> string)
    (p identifier secret override_key : json) (k : pykey) (old ws : handle)
    (st : state) :
  identify_packet p identifier secret override_key ->
  py_ne_str secret (_secret_key (self st)) = false ->
  hashable identifier = Some k ->
  PyDict.get k (registry st) = Some old ->
  (override_rejected override_key (self st) = true ->
     parse_identify py_str p ws st =
       (Raise (identify_failed duplicate_error),
        called st ws (CClose 4102 "Duplicate identifier on IDENTIFY")) /\
     registry (snd (parse_identify py_str p ws st)) = registry st /\
     PyDict.get k (registry (snd (parse_identify py_str p ws st))) = Some old) /\
  (override_key = JStr (_override_key (self st)) ->
   _override_key (self st) <> EmptyString ->
     PyDict.get k (registry (snd (parse_identify py_str p ws st))) = Some ws).
Proof.
  intros Hp Heq Hk Hold.
  assert (Hin : PyDict.contains k (registry st) = true).
  { apply contains_get. eauto. }
  split.
  - intro Hrej.
    assert (Hrun : parse_identify py_str p ws st =
              (Raise (identify_failed duplicate_error),
               called st ws (CClose 4102 "Duplicate identifier on IDENTIFY"))).
    { apply parse_identify_raise. eapply try_duplicate; eauto. }
    rewrite Hrun. split; [reflexivity|]. split; [reflexivity|exact Hold].
  - intros Hov Hne.
    assert (Hacc : override_rejected override_key (self st) = false).
    { apply override_accepted_iff. auto. }
    rewrite (accepted_run py_str _ _ _ _ _ ws st Hp Heq Hk).
    + destruct (send_error (net st ws)); apply get_set_same.
    + now rewrite Hin.
Qed.

Lemma duplicate_identify_needs_nonempty_override_witness :
  let st := mkState (mkServer [(KStr "A", 0%nat)] "s3cret" "0verride" false)
              (fun _ => fresh_websocket) in
  let p := identify "A" "s3cret" (Some "0verride") in
  PyDict.get (KStr "A") (registry st) = Some 0%nat /\
  PyDict.get (KStr "A") (registry (snd (parse_identify example_str p 1%nat st)))
    = Some 1%nat.
Proof.
  intros st p. split; [reflexivity|].
  refine (proj2 (duplicate_identify_needs_nonempty_override example_str p
                   (JStr "A") (JStr "s3cret") (JStr "0verride") (KStr "A")
                   0%nat 1%nat st _ eq_refl eq_refl eq_refl) eq_refl _).
  - exact (IdentifyPacket
             [("identifier", JStr "A"); ("type", JStr "IDENTIFY");
              ("data", JDict [("secret_key", JStr "s3cret");
                              ("override_key", JStr "0verride")])]
             [("secret_key", JStr "s3cret"); ("override_key", JStr "0verride")]
             (JStr "s3cret") eq_refl eq_refl eq_refl).
  - discriminate.
Defined.

(** C10, as stated, fails: the secret key is compared first.  An IDENTIFY for
    the registered ["A"] with the empty override key and a wrong secret key
    fails on the secret key; no [DuplicateConnection] is raised. *)
Lemma C10_counterexample : ~ C10_as_stated.
Proof.
  intro H.
  pose (st := mkState (mkServer [(KStr "A", 0%nat)] "s3cret" EmptyString false)
                (fun _ => fresh_websocket)).
  assert (Hp : identify_packet (identify "A" "guess" (Some EmptyString))
                 (JStr "A") (JStr "guess") (JStr EmptyString)).
  { exact (IdentifyPacket
             [("identifier", JStr "A"); ("type", JStr "IDENTIFY");
              ("data", JDict [("secret_key", JStr "guess");
                              ("override_key", JStr EmptyString)])]
             [("secret_key", JStr "guess"); ("override_key", JStr EmptyString)]
             (JStr "guess") eq_refl eq_refl eq_refl). }
  destruct (H example_str _ _ _ (KStr "A") 0%nat 1%nat st Hp eq_refl eq_refl)
    as [[e [He Hcls]] _].
  vm_compute in He. injection He as <-.
  destruct Hcls as [Hcls | [inner [Hinner Hcls]]].
  - discriminate.
  - injection Hinner as <-. discriminate.
Qed.

(** C10, amended.  For an IDENTIFY packet with the configured secret key
    whose identifier is registered and whose override key is the empty
    string, whatever the configured override key (the empty string
    included): the handshake closes the new connection with 4102 and raises
    "Identify failed" from [DuplicateConnection]; the server object is
    untouched, so the existing entry is kept. *)
Theorem empty_override_key_is_absent (py_str : json -> string)
    (p identifier secret : json) (k : pykey) (old ws : handle) (st : state) :
  identify_packet p identifier secret (JStr EmptyString) ->
  py_ne_str secret (_secret_key (self st)) = false ->
  hashable identifier = Some k ->
  PyDict.get k (registry st) = Some old ->
  exists st',
    parse_identify py_str p ws st =
      (Raise (identify_failed duplicate_error), st') /\
    fails_with DuplicateConnection (fst (parse_identify py_str p ws st)) /\
    self st' = self st /\
    PyDict.get k (registry st') = Some old /\
    calls (net st' ws) =
      (calls (net st ws)
       ++ [CClose 4102 "Duplicate identifier on IDENTIFY"])%list.
Proof.
  intros Hp Heq Hk Hold.
  assert (Hrun : parse_identify py_str p ws st =
            (Raise (identify_failed duplicate_error),
             called st ws (CClose 4102 "Duplicate identifier on IDENTIFY"))).
  { apply parse_identify_raise. eapply try_duplicate; eauto.
    apply contains_get. eauto. }
  eexists. split; [exact Hrun|]. split; [|split; [|split]].
  - rewrite Hrun. exists (identify_failed duplicate_error).
    split; [reflexivity|]. right. exists duplicate_error. split; reflexivity.
  - reflexivity.
  - exact Hold.
  - apply calls_called.
Qed.

Lemma empty_override_key_is_absent_witness :
  let st := mkState (mkServer [(KStr "A", 0%nat)] "s3cret" EmptyString false)
              (fun _ => fresh_websocket) in
  let p := identify "A" "s3cret" (Some EmptyString) in
  _override_key (self st) = EmptyString /\
  exists st',
    parse_identify example_str p 1%nat st =
      (Raise (identify_failed duplicate_error), st') /\
    fails_with DuplicateConnection (fst (parse_identify example_str p 1%nat st)) /\
    self st' = self st /\
    PyDict.get (KStr "A") (registry st') = Some 0%nat /\
    calls (net st' 1%nat) =
      (calls (net st 1%nat)
       ++ [CClose 4102 "Duplicate identifier on IDENTIFY"])%list.
Proof.
  intros st p. split; [reflexivity|].
  refine (empty_override_key_is_absent example_str p (JStr "A")
            (JStr "s3cret") (KStr "A") 0%nat 1%nat st _ eq_refl eq_refl
            eq_refl).
  exact (IdentifyPacket
           [("identifier", JStr "A"); ("type", JStr "IDENTIFY");
            ("data", JDict [("secret_key", JStr "s3cret");
                            ("override_key", JStr EmptyString)])]
           [("secret_key", JStr "s3cret"); ("override_key", JStr EmptyString)]
           (JStr "s3cret") eq_refl eq_refl eq_refl).
Defined.

(** ** The handshake: closing and error kinds *)

(** C3, as stated, fails on a malformed packet: the first packet [{}] has
    no ["type"], the [KeyError] is wrapped and raised, and nothing was
    called on the connection. *)
Lemma C3_counterexample : ~ C3_as_stated.
Proof.
  intro H.
  pose (st := mkState (mkServer [] "s3cret" "0verride" false)
                (fun _ => fresh_websocket)).
  destruct (H example_str (JDict []) 1%nat st
              (identify_failed (Exn KeyError [JStr "type"] None)) st eq_refl)
    as [code [reason Hin]].
  exact Hin.
Qed.

(** C3, amended.  For each of the three failures the handshake tests for
    (first packet not IDENTIFY, wrong secret key, registered identifier
    without a valid override), the state in which the error is raised is the
    old one with [close(code, reason)] called on the offending connection:
    4101, 4100 and 4102 in that order. *)
Theorem expected_failures_close_first (py_str : json -> string) (p : json)
    (code : Z) (reason : string) (inner : exn) (ws : handle) (st : state) :
  expected_failure py_str st p code reason inner ->
  exists e st',
    parse_identify py_str p ws st = (Raise e, st') /\
    st' = called st ws (CClose code reason) /\
    calls (net st' ws) = (calls (net st ws) ++ [CClose code reason])%list /\
    (code = 4101 \/ code = 4100 \/ code = 4102).
Proof.
  intro H. exists (identify_failed inner), (called st ws (CClose code reason)).
  split; [now apply expected_failure_run|].
  split; [reflexivity|]. split; [apply calls_called|].
  destruct H; auto.
Qed.

Lemma expected_failures_close_first_witness :
  let st := mkState (mkServer [] "s3cret" "0verride" false)
              (fun _ => fresh_websocket) in
  let p := Packet (JStr "A") (JStr "REQUEST") JNull in
  exists e st',
    parse_identify example_str p 1%nat st = (Raise e, st') /\
    st' = called st 1%nat (CClose 4101 "Expected IDENTIFY, received REQUEST") /\
    calls (net st' 1%nat) =
      (calls (net st 1%nat)
       ++ [CClose 4101 "Expected IDENTIFY, received REQUEST"])%list /\
    (4101 = 4101 \/ 4101 = 4100 \/ 4101 = 4102).
Proof.
  intros st p.
  exact (expected_failures_close_first example_str p 4101
           "Expected IDENTIFY, received REQUEST"
           (unexpected_type_error example_str (JStr "REQUEST")) 1%nat st
           (UnexpectedType example_str st
              [("identifier", JStr "A"); ("type", JStr "REQUEST");
               ("data", JNull)]
              (JStr "REQUEST") eq_refl eq_refl)).
Defined.

(** C4, as stated, fails: the [DuplicateConnection] raised for a registered
    identifier without override key is caught by [except Exception] like
    any other; the caller receives a [BaseZonisException]. *)
Lemma C4_counterexample : ~ C4_as_stated.
Proof.
  intro H.
  pose (st := mkState (mkServer [(KStr "A", 0%nat)] "s3cret" "0verride" false)
                (fun _ => fresh_websocket)).
  assert (Hf : expected_failure example_str st (identify "A" "s3cret" None)
                 4102 "Duplicate identifier on IDENTIFY" duplicate_error).
  { apply (DuplicateIdentifier example_str st _ (JStr "A") (JStr "s3cret")
             JNull (KStr "A")); try reflexivity.
    exact (IdentifyPacket
             [("identifier", JStr "A"); ("type", JStr "IDENTIFY");
              ("data", JDict [("secret_key", JStr "s3cret")])]
             [("secret_key", JStr "s3cret")] (JStr "s3cret")
             eq_refl eq_refl eq_refl). }
  destruct (H example_str _ _ _ _ 1%nat st Hf) as [e [He [Hcls _]]].
  vm_compute in He. injection He as <-. discriminate.
Qed.

(** C4, amended.  Every exception that leaves the handshake is the generic
    [BaseZonisException("Identify failed")], expected failure or not; the
    failure itself is its [__cause__]: for the three expected failures a
    [BaseZonisException] naming the unexpected type, a [BaseZonisException]
    naming the incorrect secret key, and [DuplicateConnection]. *)
Theorem every_failure_surfaces_as_identify_failed (py_str : json -> string)
    (p : json) (ws : handle) (st : state) :
  (forall e st',
     parse_identify py_str p ws st = (Raise e, st') ->
     exn_cls e = BaseZonisException /\
     exn_args e = [JStr "Identify failed"] /\
     exists inner,
       exn_cause e = Some inner /\
       parse_identify_try py_str p ws st = (Raise inner, st')) /\
  (forall code reason inner,
     expected_failure py_str st p code reason inner ->
     fst (parse_identify py_str p ws st) = Raise (identify_failed inner) /\
     (code = 4101 -> exn_cls inner = BaseZonisException) /\
     (code = 4100 -> inner = incorrect_secret_error) /\
     (code = 4102 -> inner = duplicate_error)).
Proof.
  split.
  - intros e st' H.
    destruct (parse_identify_raises_wrapped _ _ _ _ _ _ H) as [inner [-> Htry]].
    repeat split. exists inner. split; [reflexivity|exact Htry].
  - intros code reason inner H.
    rewrite (expected_failure_run _ _ _ _ _ _ ws H).
    split; [reflexivity|].
    destruct H; repeat split; intros; try discriminate; reflexivity.
Qed.

Lemma every_failure_surfaces_as_identify_failed_witness :
  let st := mkState (mkServer [(KStr "A", 0%nat)] "s3cret" "0verride" false)
              (fun _ => fresh_websocket) in
  let p := identify "A" "s3cret" None in
  expected_failure example_str st p 4102 "Duplicate identifier on IDENTIFY"
    duplicate_error /\
  fst (parse_identify example_str p 1%nat st) =
    Raise (identify_failed duplicate_error).
Proof.
  intros st p.
  assert (Hf : expected_failure example_str st p
                 4102 "Duplicate identifier on IDENTIFY" duplicate_error).
  { apply (DuplicateIdentifier example_str st _ (JStr "A") (JStr "s3cret")
             JNull (KStr "A")); try reflexivity.
    exact (IdentifyPacket
             [("identifier", JStr "A"); ("type", JStr "IDENTIFY");
              ("data", JDict [("secret_key", JStr "s3cret")])]
             [("secret_key", JStr "s3cret")] (JStr "s3cret")
             eq_refl eq_refl eq_refl). }
  split; [exact Hf|].
  exact (proj1 (proj2 (every_failure_surfaces_as_identify_failed example_str p
                         1%nat st) 4102 _ _ Hf)).
Defined.

(** ** The dispatcher: [request] *)

Lemma inbox_called st ws c : inbox (net (called st ws c) ws) = inbox (net st ws).
Proof. unfold called, upd; simpl. now rewrite Nat.eqb_refl. Qed.

Lemma send_error_called st ws c :
  send_error (net (called st ws c) ws) = send_error (net st ws).
Proof. unfold called, upd; simpl. now rewrite Nat.eqb_refl. Qed.

Lemma _recv_text conn st t rest :
  inbox (net st conn) = InText t :: rest ->
  _recv conn st = (Ret t, received st conn rest).
Proof.
  intro H. unfold _recv. rewrite bind_get_self.
  destruct (using_fastapi_websockets (self st));
    unfold try_except, ws_recv; rewrite H; reflexivity.
Qed.

Lemma _recv_raise conn st e rest :
  inbox (net st conn) = InRaise e :: rest ->
  _recv conn st =
    (Raise
       (if using_fastapi_websockets (self st)
           && exn_class_eqb (exn_cls e) WebSocketDisconnect
        then Exn RequestFailed
               [JStr "Websocket disconnected while waiting for receive."] None
        else e),
     received st conn rest).
Proof.
  intro H. unfold _recv. rewrite bind_get_self.
  destruct (using_fastapi_websockets (self st)); simpl;
    unfold try_except, ws_recv; rewrite H.
  - destruct (exn_class_eqb (exn_cls e) WebSocketDisconnect); reflexivity.
  - reflexivity.
Qed.

Lemma calls_received st conn rest :
  calls (net (received st conn rest) conn) = calls (net st conn).
Proof. unfold received, upd; simpl. now rewrite Nat.eqb_refl. Qed.

Lemma inbox_received st conn rest :
  inbox (net (received st conn rest) conn) = rest.
Proof. unfold received, upd; simpl. now rewrite Nat.eqb_refl. Qed.

Lemma request_unregistered route client_identifier kwargs st :
  PyDict.get client_identifier (registry st) = None ->
  request route client_identifier kwargs st =
    (Raise (Exn UnknownClient [] None), st).
Proof.
  intro H. unfold request. rewrite bind_get_self.
  unfold registry in H. now rewrite H.
Qed.

(** C8. A request for an identifier the registry does not hold raises
    [UnknownClient] in the very state it was called in: nothing is sent or
    received on any connection and the registry is the same. *)
Theorem request_unknown_client (route : string) (client_identifier : pykey)
    (kwargs : list (string * json)) (st : state) :
  PyDict.get client_identifier (registry st) = None ->
  request route client_identifier kwargs st =
    (Raise (Exn UnknownClient [] None), st).
Proof. apply request_unregistered. Qed.

Lemma request_unknown_client_witness :
  let st := mkState (mkServer [(KStr "A", 0%nat)] "s3cret" "0verride" false)
              (fun _ => fresh_websocket) in
  PyDict.get (KStr "B") (registry st) = None /\
  request "ping" (KStr "B") [] st = (Raise (Exn UnknownClient [] None), st).
Proof.
  intro st. split; [reflexivity|].
  exact (request_unknown_client "ping" (KStr "B") [] st eq_refl).
Defined.

(** C7. A request to a registered connection that accepts the write and
    whose next inbound frame is a packet: the REQUEST frame is written, that
    one frame is consumed, and the packet decides the outcome:
    [RequestFailed(data)] is raised when its type is FAILURE_RESPONSE, its
    [data] is returned for any other type. *)
Theorem request_answer_is_next_packet (route : string)
    (client_identifier : pykey) (kwargs : list (string * json))
    (conn : handle) (d : list (string * json)) (ty data : json)
    (rest : list inbound) (st : state) :
  PyDict.get client_identifier (registry st) = Some conn ->
  send_error (net st conn) = None ->
  inbox (net st conn) = InText (Encoded (JDict d)) :: rest ->
  assoc_get "type" d = Some ty ->
  assoc_get "data" d = Some data ->
  exists st',
    request route client_identifier kwargs st =
      ((if py_eq_str ty "FAILURE_RESPONSE"
        then Raise (Exn RequestFailed [data] None)
        else Ret data),
       st') /\
    self st' = self st /\
    calls (net st' conn) =
      (calls (net st conn)
       ++ [send_call (self st) (request_frame client_identifier route kwargs)])%list /\
    inbox (net st' conn) = rest.
Proof.
  intros Hget Hsend Hin Hty Hdata.
  set (sent := called st conn
                 (send_call (self st)
                    (request_frame client_identifier route kwargs))).
  exists (received sent conn rest).
  split; [|split; [reflexivity|split]].
  - unfold request. rewrite bind_get_self.
    unfold registry in Hget. rewrite Hget.
    unfold bind at 1. rewrite _send_ok by exact Hsend.
    fold (request_frame client_identifier route kwargs). fold sent.
    unfold bind at 1.
    rewrite (_recv_text conn sent (Encoded (JDict d)) rest)
      by (unfold sent; now rewrite inbox_called).
    simpl json_loads. rewrite bind_ret.
    rewrite (getitem_dict _ _ _ Hty), bind_ret.
    rewrite (getitem_dict _ _ _ Hdata).
    destruct (py_eq_str ty "FAILURE_RESPONSE"); reflexivity.
  - rewrite calls_received. apply calls_called.
  - apply inbox_received.
Qed.

Lemma request_answer_is_next_packet_witness :
  let reply := Packet (JStr "A") (JStr "RESPONSE") (JStr "pong") in
  let st :=
    mkState (mkServer [(KStr "A", 0%nat)] "s3cret" "0verride" false)
      (fun _ => mkWebsocket [InText (Encoded reply)] None []) in
  exists st',
    request "ping" (KStr "A") [] st = (Ret (JStr "pong"), st') /\
    self st' = self st /\
    calls (net st' 0%nat) =
      (calls (net st 0%nat)
       ++ [send_call (self st) (request_frame (KStr "A") "ping" [])])%list /\
    inbox (net st' 0%nat) = [].
Proof.
  intros reply st.
  exact (request_answer_is_next_packet "ping" (KStr "A") [] 0%nat
           [("identifier", JStr "A"); ("type", JStr "RESPONSE");
            ("data", JStr "pong")]
           (JStr "RESPONSE") (JStr "pong") [] st
           eq_refl eq_refl eq_refl eq_refl eq_refl).
Defined.

(** ** [disconnect] *)

(** C9. [disconnect(identifier)] returns, leaves a registry without an entry
    for the identifier and with every other entry as it was, and leaves
    every websocket as it was (nothing is closed); on a registry without
    the identifier it changes nothing, a second [disconnect] changes
    nothing more, and a [request] for the identifier that follows raises
    [UnknownClient], whatever the state of the connection. *)
Theorem disconnect_removes_entry_only (identifier : pykey) (route : string)
    (kwargs : list (string * json)) (st : state) :
  exists st',
    disconnect identifier st = (Ret tt, st') /\
    registry st' = PyDict.pop identifier (registry st) /\
    PyDict.get identifier (registry st') = None /\
    (forall k, key_eqb identifier k = false ->
               PyDict.get k (registry st') = PyDict.get k (registry st)) /\
    net st' = net st /\
    (PyDict.get identifier (registry st) = None -> st' = st) /\
    disconnect identifier st' = (Ret tt, st') /\
    request route identifier kwargs st' =
      (Raise (Exn UnknownClient [] None), st').
Proof.
  eexists. split; [reflexivity|]. cbn [snd].
  split; [reflexivity|]. split; [apply get_pop_same|].
  split; [intros k Hk; now apply get_pop_other|].
  split; [reflexivity|]. split; [|split].
  - intro Habs. destruct st as [[reg secret override fastapi] n].
    simpl in *. unfold registry in Habs; simpl in Habs.
    now rewrite (pop_absent _ _ Habs).
  - unfold disconnect. rewrite bind_get_self. unfold set_connections.
    simpl. now rewrite pop_idempotent.
  - apply request_unregistered. apply get_pop_same.
Qed.

Lemma disconnect_removes_entry_only_witness :
  let st := mkState (mkServer [(KStr "A", 0%nat); (KStr "B", 1%nat)]
                       "s3cret" "0verride" false)
              (fun _ => fresh_websocket) in
  exists st',
    disconnect (KStr "A") st = (Ret tt, st') /\
    registry st' = PyDict.pop (KStr "A") (registry st) /\
    PyDict.get (KStr "A") (registry st') = None /\
    (forall k, key_eqb (KStr "A") k = false ->
               PyDict.get k (registry st') = PyDict.get k (registry st)) /\
    net st' = net st /\
    (PyDict.get (KStr "A") (registry st) = None -> st' = st) /\
    disconnect (KStr "A") st' = (Ret tt, st') /\
    request "ping" (KStr "A") [] st' =
      (Raise (Exn UnknownClient [] None), st').
Proof.
  intro st. exact (disconnect_removes_entry_only (KStr "A") "ping" [] st).
Defined.

(** ** The dispatcher: [request_all] *)

(** A turn of the loop that returns has stored one value under its key. *)
Lemma request_all_turn_ret route kwargs i conn results st results' st' :
  request_all_turn route kwargs i conn results st = (Ret results', st') ->
  exists v, results' = PyDict.set i v results.
Proof.
  unfold request_all_turn, try_except.
  match goal with
  | |- context [let (_, _) := ?m st in _] => destruct (m st) as [[r|e|] st1] eqn:Hbody
  | |- context [match ?m st with _ => _ end] => destruct (m st) as [[r|e|] st1] eqn:Hbody
  end.
  - intro H. injection H as <- <-.
    revert Hbody. unfold bind at 1.
    destruct (_send _ conn st) as [[[]|e|] s1]; try discriminate.
    unfold bind at 1.
    destruct (_recv conn s1) as [[t|e|] s2]; try discriminate.
    unfold bind at 1.
    destruct (json_loads t s2) as [[packet|e|] s3]; try discriminate.
    unfold bind at 1.
    destruct (getitem packet "type" s3) as [[ty|e|] s4]; try discriminate.
    destruct (py_eq_str ty "FAILURE_RESPONSE"); unfold bind;
      destruct (getitem packet "data" s4) as [[data|e|] s5]; try discriminate;
      unfold ret; intro H; injection H as <- <-; eauto.
  - destruct (exn_class_eqb (exn_cls e) ConnectionClosedOK).
    + unfold ret. intro H. injection H as <- <-. eauto.
    + discriminate.
  - discriminate.
Qed.

Lemma contains_set {V : Type} (k k2 : pykey) (v : V) (d : PyDict.t V) :
  PyDict.contains k2 (PyDict.set k v d) = key_eqb k k2 || PyDict.contains k2 d.
Proof.
  unfold PyDict.contains.
  destruct (key_eqb k k2) eqn:E; simpl.
  - assert (H : PyDict.get k2 (PyDict.set k v d) = PyDict.get k (PyDict.set k v d)).
    { clear -E. induction (PyDict.set k v d) as [|[k' v'] r IH]; simpl; auto.
      rewrite (key_eqb_sym k' k2), (key_eqb_sym k' k).
      rewrite key_eqb_sym in E. rewrite (key_eqb_congr _ _ _ E), IH.
      reflexivity. }
    now rewrite H, get_set_same.
  - now rewrite get_set_other.
Qed.

(** When [request_all] returns, the mapping holds an entry for a key exactly
    when the registry does. *)
Lemma request_all_loop_keys route kwargs todo :
  forall results st results' st',
    request_all_loop route kwargs todo results st = (Ret results', st') ->
    forall k,
      PyDict.contains k results' =
      PyDict.contains k results || PyDict.contains k todo.
Proof.
  induction todo as [|[i conn] rest IH]; intros results st results' st' H k.
  - simpl in H. injection H as <- <-. now rewrite orb_false_r.
  - simpl in H. unfold bind in H.
    destruct (request_all_turn route kwargs i conn results st)
      as [[r1|e|] st1] eqn:Hturn; try discriminate.
    apply request_all_turn_ret in Hturn as [v ->].
    rewrite (IH _ _ _ _ H k), contains_set.
    unfold PyDict.contains. simpl.
    destruct (key_eqb i k), (PyDict.get k results), (PyDict.get k rest);
      reflexivity.
Qed.

Lemma request_all_keys route kwargs st results st' :
  request_all route kwargs st = (Ret results, st') ->
  forall k, PyDict.contains k results = PyDict.contains k (registry st).
Proof.
  unfold request_all. rewrite bind_get_self. intros H k.
  now rewrite (request_all_loop_keys _ _ _ _ _ _ _ H k).
Qed.

(** The path that works: under the plain transport a peer that went away
    with [ConnectionClosedOK] becomes a stored [RequestFailed], and the two
    other clients are still asked and answered. *)
Lemma request_all_plain_closed_ok_collects :
  fst (request_all "ping" []
         (three_clients false (Exn ConnectionClosedOK [] None))) =
  Ret [(KStr "A", Error (Exn RequestFailed [JStr "Connection Closed"] None));
       (KStr "B", Data (JStr "pong"));
       (KStr "C", Data (JStr "pong"))].
Proof. reflexivity. Qed.

(** C2.  Under the FastAPI transport the same situation makes [request_all]
    raise: [_recv] turns the [WebSocketDisconnect] of ["A"] into a raised
    [RequestFailed], which [except ConnectionClosedOK] does not catch.  No
    mapping is returned, and ["B"] and ["C"] are never sent the request. *)
Theorem request_all_fastapi_disconnect_raises :
  let st := three_clients true (Exn WebSocketDisconnect [] None) in
  let r := request_all "ping" [] st in
  fst r =
    Raise (Exn RequestFailed
             [JStr "Websocket disconnected while waiting for receive."] None) /\
  calls (net (snd r) 0%nat) = [CSendText (request_frame (KStr "A") "ping" [])] /\
  calls (net (snd r) 1%nat) = [] /\
  calls (net (snd r) 2%nat) = [].
Proof. repeat split. Qed.

(** The plain transport has the same gap for a connection that did not
    close cleanly: [ConnectionClosedError] is not [ConnectionClosedOK]. *)
Lemma request_all_plain_closed_error_raises :
  fst (request_all "ping" []
         (three_clients false (Exn ConnectionClosedError [] None))) =
  Raise (Exn ConnectionClosedError [] None).
Proof. reflexivity. Qed.

(** The gap behind C2 in general: under the FastAPI transport, a first
    registered connection that takes the request and then disconnects makes
    [request_all] raise, whoever else is registered. *)
Lemma request_all_fastapi_first_disconnect route kwargs i conn others args
    rest st :
  using_fastapi_websockets (self st) = true ->
  registry st = (i, conn) :: others ->
  send_error (net st conn) = None ->
  inbox (net st conn) = InRaise (Exn WebSocketDisconnect args None) :: rest ->
  fst (request_all route kwargs st) =
    Raise (Exn RequestFailed
             [JStr "Websocket disconnected while waiting for receive."] None).
Proof.
  intros Hfast Hreg Hsend Hin.
  unfold request_all. rewrite bind_get_self.
  unfold registry in Hreg. rewrite Hreg. simpl request_all_loop.
  unfold bind at 1, request_all_turn, try_except.
  unfold bind at 1. rewrite _send_ok by exact Hsend.
  unfold bind at 1.
  rewrite (_recv_raise conn _ (Exn WebSocketDisconnect args None) rest)
    by (now rewrite inbox_called).
  simpl self. rewrite Hfast. reflexivity.
Qed.

(** ** The registry invariant *)

(** The handshake leaves the registry as it was or binds one key to the new
    connection. *)
Lemma parse_identify_try_registry py_str p ws st r st' :
  parse_identify_try py_str p ws st = (r, st') ->
  registry st' = registry st \/
  exists k, registry st' = PyDict.set k ws (registry st).
Proof.
  intro H.
  destruct p as [| b | z | s | l | d];
    try (injection H as <- <-; left; reflexivity).
  unfold parse_identify_try in H. rewrite dict_get_dict, bind_ret in H.
  unfold getitem at 1 in H.
  destruct (assoc_get "type" d) as [ty|];
    [|injection H as <- <-; left; reflexivity].
  rewrite bind_ret in H.
  destruct (py_ne_str ty "IDENTIFY");
    [injection H as <- <-; left; reflexivity|].
  unfold getitem at 1 in H.
  destruct (assoc_get "data" d) as [data|] eqn:Hdata;
    [|injection H as <- <-; left; reflexivity].
  rewrite bind_ret in H.
  destruct data as [| b | z | s | l | dd];
    try (injection H as <- <-; left; reflexivity).
  unfold getitem at 1 in H.
  destruct (assoc_get "secret_key" dd) as [secret|];
    [|injection H as <- <-; left; reflexivity].
  rewrite bind_ret, bind_get_self in H.
  destruct (py_ne_str secret (_secret_key (self st)));
    [injection H as <- <-; left; reflexivity|].
  rewrite (getitem_dict _ _ _ Hdata), bind_ret, dict_get_dict, bind_ret in H.
  unfold hash_key in H.
  destruct (hashable (field_or_none "identifier" d)) as [k|];
    [|injection H as <- <-; left; reflexivity].
  rewrite bind_ret, bind_get_self in H.
  destruct (if PyDict.contains k (_connections (self st))
            then _ else false);
    [injection H as <- <-; left; reflexivity|].
  rewrite bind_set_connections in H. right. exists k.
  unfold bind in H.
  destruct (send_error (net st ws)) as [e|] eqn:Hsend.
  - rewrite (_send_fails _ _ _ e) in H by exact Hsend.
    injection H as <- <-. reflexivity.
  - rewrite _send_ok in H by exact Hsend.
    injection H as <- <-. reflexivity.
Qed.

Lemma parse_identify_registry py_str p ws st :
  registry (snd (parse_identify py_str p ws st)) = registry st \/
  exists k,
    registry (snd (parse_identify py_str p ws st)) =
      PyDict.set k ws (registry st).
Proof.
  unfold parse_identify, try_except.
  destruct (parse_identify_try py_str p ws st) as [r st'] eqn:H.
  apply parse_identify_try_registry in H.
  destruct r; exact H.
Qed.

(** Distinct keys stay distinct through the handshake and through
    [disconnect]: an identifier never has two entries. *)
Lemma parse_identify_keeps_wf py_str p ws st :
  PyDict.wf (registry st) ->
  PyDict.wf (registry (snd (parse_identify py_str p ws st))).
Proof.
  intro H.
  destruct (parse_identify_registry py_str p ws st) as [-> | [k ->]].
  - exact H.
  - now apply wf_set.
Qed.

Lemma disconnect_keeps_wf identifier st :
  PyDict.wf (registry st) ->
  PyDict.wf (registry (snd (disconnect identifier st))).
Proof.
  intro H. unfold disconnect. rewrite bind_get_self. simpl.
  now apply wf_pop.
Qed.

(** ** Unexpected failures *)

(** A packet without ["type"]: the [KeyError] is wrapped and raised in the
    state the handshake started in; no call is made on the connection. *)
Lemma parse_identify_missing_type py_str d ws st :
  assoc_get "type" d = None ->
  parse_identify py_str (JDict d) ws st =
    (Raise (identify_failed (Exn KeyError [JStr "type"] None)), st).
Proof.
  intro H. apply parse_identify_raise.
  unfold parse_identify_try. rewrite dict_get_dict, bind_ret.
  unfold getitem. rewrite H. reflexivity.
Qed.

(** An IDENTIFY packet whose [data] has no ["secret_key"]: likewise. *)
Lemma parse_identify_missing_secret py_str d dd ws st :
  assoc_get "type" d = Some (JStr "IDENTIFY") ->
  assoc_get "data" d = Some (JDict dd) ->
  assoc_get "secret_key" dd = None ->
  parse_identify py_str (JDict d) ws st =
    (Raise (identify_failed (Exn KeyError [JStr "secret_key"] None)), st).
Proof.
  intros Hty Hdata Hsecret. apply parse_identify_raise.
  unfold parse_identify_try. rewrite dict_get_dict, bind_ret.
  rewrite (getitem_dict _ _ _ Hty), bind_ret.
  change (py_ne_str (JStr "IDENTIFY") "IDENTIFY") with false. cbv iota.
  rewrite (getitem_dict _ _ _ Hdata), bind_ret.
  unfold getitem at 1. rewrite Hsecret. reflexivity.
Qed.

(** * Further properties of the dispatcher and of the handshake *)

(** ** What a method leaves alone *)

Lemma local_ret {A : Type} conn (a : A) : local_to conn (ret a).
Proof. intro st. split; auto. Qed.

Lemma local_raise {A : Type} conn e : local_to conn (@raise A e).
Proof. intro st. split; auto. Qed.

Lemma local_bind {A B : Type} conn (m : M A) (k : A -> M B) :
  local_to conn m -> (forall a, local_to conn (k a)) ->
  local_to conn (bind m k).
Proof.
  intros Hm Hk st. unfold bind.
  specialize (Hm st). destruct (m st) as [[a|e|] st1]; simpl in Hm; auto.
  destruct (Hk a st1) as [H1 H2]. destruct Hm as [H3 H4].
  split; [congruence|]. intros h Hh. rewrite H2, H4; auto.
Qed.

Lemma local_try_except {A : Type} conn (m : M A) handles h :
  local_to conn m -> (forall e, local_to conn (h e)) ->
  local_to conn (try_except m handles h).
Proof.
  intros Hm Hh st. unfold try_except.
  specialize (Hm st). destruct (m st) as [[a|e|] st1]; simpl in Hm; auto.
  destruct (handles e); auto.
  destruct (Hh e st1) as [H1 H2]. destruct Hm as [H3 H4].
  split; [congruence|]. intros h' Hh'. rewrite H2, H4; auto.
Qed.

Lemma local_get_self conn : local_to conn get_self.
Proof. intro st. split; auto. Qed.

Lemma upd_other n h w h' : h' <> h -> upd n h w h' = n h'.
Proof. intro H. unfold upd. apply Nat.eqb_neq in H. now rewrite H. Qed.

Lemma local_ws_send as_text conn content : local_to conn (ws_send as_text conn content).
Proof.
  intro st. unfold ws_send. destruct (send_error (net st conn)); simpl; auto.
  split; auto. intros h Hh. now apply upd_other.
Qed.

Lemma local_ws_recv conn : local_to conn (ws_recv conn).
Proof.
  intro st. unfold ws_recv.
  destruct (inbox (net st conn)) as [|[t|e] r]; simpl; auto;
    (split; auto; intros h Hh; now apply upd_other).
Qed.

Lemma local__send conn content : local_to conn (_send content conn).
Proof.
  unfold _send. apply local_bind; [apply local_get_self|].
  intro s. destruct (using_fastapi_websockets s); apply local_ws_send.
Qed.

Lemma local__recv conn : local_to conn (_recv conn).
Proof.
  unfold _recv. apply local_bind; [apply local_get_self|].
  intro s. destruct (using_fastapi_websockets s).
  - apply local_try_except; [apply local_ws_recv|]. intro e. apply local_raise.
  - apply local_ws_recv.
Qed.

Lemma local_json_loads conn d : local_to conn (json_loads d).
Proof. destruct d; [apply local_ret|apply local_raise]. Qed.

Lemma local_getitem conn v k : local_to conn (getitem v k).
Proof.
  unfold getitem. destruct v; try apply local_raise.
  destruct (assoc_get k d); [apply local_ret|apply local_raise].
Qed.

Ltac local_steps :=
  repeat first
    [ apply local_ret | apply local_raise | apply local__send
    | apply local__recv | apply local_json_loads | apply local_getitem
    | apply local_get_self
    | apply local_bind; [|intro]
    | apply local_try_except; [|intro]
    | match goal with |- local_to _ (if ?c then _ else _) => destruct c end ].

Lemma local_request_all_turn route kwargs i conn results :
  local_to conn (request_all_turn route kwargs i conn results).
Proof. unfold request_all_turn. local_steps. Qed.

Lemma request_all_loop_frame route kwargs todo :
  forall results st,
    self (snd (request_all_loop route kwargs todo results st)) = self st /\
    (forall h, ~ In h (map snd todo) ->
       net (snd (request_all_loop route kwargs todo results st)) h = net st h).
Proof.
  induction todo as [|[i conn] rest IH]; intros results st; simpl.
  - auto.
  - unfold bind.
    destruct (local_request_all_turn route kwargs i conn results st) as [H1 H2].
    destruct (request_all_turn route kwargs i conn results st)
      as [[r|e|] st1]; simpl in H1, H2.
    + destruct (IH r st1) as [H3 H4]. split; [congruence|].
      intros h Hh. rewrite H4, H2; auto.
    + split; auto.
    + split; auto.
Qed.

(** X1. [request] never changes the server object, whatever its outcome (a
    connection that failed stays registered), and the only websocket it
    touches is the one registered for the identifier. *)
Theorem request_touches_one_connection (route : string)
    (client_identifier : pykey) (kwargs : list (string * json)) (st : state) :
  let st' := snd (request route client_identifier kwargs st) in
  self st' = self st /\
  (forall h, PyDict.get client_identifier (registry st) <> Some h ->
             net st' h = net st h).
Proof.
  unfold request. rewrite bind_get_self. unfold registry.
  destruct (PyDict.get client_identifier (_connections (self st)))
    as [conn|] eqn:Hget; simpl.
  - match goal with
    | |- context [snd (?m st)] =>
        assert (Hl : local_to conn m) by local_steps; destruct (Hl st) as [H1 H2]
    end.
    split; [exact H1|]. intros h Hh. apply H2. congruence.
  - auto.
Qed.

(** X2. [request_all] never changes the server object, whatever its outcome
    (no entry is removed for a connection that failed), and it touches no
    websocket outside the registry. *)
Theorem request_all_touches_registered_only (route : string)
    (kwargs : list (string * json)) (st : state) :
  let st' := snd (request_all route kwargs st) in
  self st' = self st /\
  (forall h, ~ In h (map snd (registry st)) -> net st' h = net st h).
Proof.
  unfold request_all. rewrite bind_get_self.
  apply request_all_loop_frame.
Qed.

(** ** [request]: failures of the transport and of the reply *)

(** [request] up to the write of the REQUEST frame. *)
Lemma request_after_send route client_identifier kwargs conn st :
  PyDict.get client_identifier (registry st) = Some conn ->
  send_error (net st conn) = None ->
  request route client_identifier kwargs st =
    (d <- _recv conn ;;
     packet <- json_loads d ;;
     ty <- getitem packet "type" ;;
     if py_eq_str ty "FAILURE_RESPONSE"
     then data <- getitem packet "data" ;;
          raise (Exn RequestFailed [data] None)
     else getitem packet "data")
      (called st conn
         (send_call (self st) (request_frame client_identifier route kwargs))).
Proof.
  intros Hget Hsend. unfold request. rewrite bind_get_self.
  unfold registry in Hget. rewrite Hget.
  unfold bind at 1. rewrite _send_ok by exact Hsend. reflexivity.
Qed.

Lemma request_unwritable route client_identifier kwargs conn e st :
  PyDict.get client_identifier (registry st) = Some conn ->
  send_error (net st conn) = Some e ->
  request route client_identifier kwargs st = (Raise e, st).
Proof.
  intros Hget Hsend. unfold request. rewrite bind_get_self.
  unfold registry in Hget. rewrite Hget.
  unfold bind at 1. rewrite (_send_fails _ _ _ e) by exact Hsend. reflexivity.
Qed.

(** X3. A request whose REQUEST frame cannot be written raises the
    transport's own exception in the state it was called in: nothing is
    logged on the connection, no frame is consumed, the entry stays. *)
Theorem request_send_failure (route : string) (client_identifier : pykey)
    (kwargs : list (string * json)) (conn : handle) (e : exn) (st : state) :
  PyDict.get client_identifier (registry st) = Some conn ->
  send_error (net st conn) = Some e ->
  request route client_identifier kwargs st = (Raise e, st).
Proof. apply request_unwritable. Qed.

Lemma request_send_failure_witness :
  let gone := Exn ConnectionClosedError [] None in
  let st := mkState (mkServer [(KStr "A", 0%nat)] "s3cret" "0verride" false)
              (fun _ => mkWebsocket [] (Some gone) []) in
  request "ping" (KStr "A") [] st = (Raise gone, st).
Proof.
  intros gone st.
  exact (request_send_failure "ping" (KStr "A") [] 0%nat gone st
           eq_refl eq_refl).
Defined.

(** X4. A request whose read ends with an exception [e]: the REQUEST frame
    has been written, the registry is unchanged, and the caller receives
    [e] itself, except under the FastAPI transport for
    [WebSocketDisconnect], which becomes
    [RequestFailed("Websocket disconnected while waiting for receive.")].
    In particular the plain transport's [ConnectionClosedOK] is not turned
    into [RequestFailed] here. *)
Theorem request_receive_failure (route : string) (client_identifier : pykey)
    (kwargs : list (string * json)) (conn : handle) (e : exn)
    (rest : list inbound) (st : state) :
  PyDict.get client_identifier (registry st) = Some conn ->
  send_error (net st conn) = None ->
  inbox (net st conn) = InRaise e :: rest ->
  exists st',
    request route client_identifier kwargs st =
      (Raise
         (if using_fastapi_websockets (self st)
             && exn_class_eqb (exn_cls e) WebSocketDisconnect
          then Exn RequestFailed
                 [JStr "Websocket disconnected while waiting for receive."]
                 None
          else e),
       st') /\
    registry st' = registry st /\
    calls (net st' conn) =
      (calls (net st conn)
       ++ [send_call (self st) (request_frame client_identifier route kwargs)])%list /\
    inbox (net st' conn) = rest.
Proof.
  intros Hget Hsend Hin.
  rewrite (request_after_send _ _ _ _ _ Hget Hsend).
  eexists. split.
  - unfold bind at 1.
    rewrite (_recv_raise conn _ e rest) by (now rewrite inbox_called).
    reflexivity.
  - split; [reflexivity|]. split.
    + rewrite calls_received. apply calls_called.
    + apply inbox_received.
Qed.

Lemma request_receive_failure_witness :
  let gone := Exn ConnectionClosedOK [] None in
  let st := mkState (mkServer [(KStr "A", 0%nat)] "s3cret" "0verride" false)
              (fun _ => mkWebsocket [InRaise gone] None []) in
  exists st',
    request "ping" (KStr "A") [] st = (Raise gone, st') /\
    registry st' = registry st /\
    calls (net st' 0%nat) =
      (calls (net st 0%nat)
       ++ [send_call (self st) (request_frame (KStr "A") "ping" [])])%list /\
    inbox (net st' 0%nat) = [].
Proof.
  intros gone st.
  exact (request_receive_failure "ping" (KStr "A") [] 0%nat gone [] st
           eq_refl eq_refl eq_refl).
Defined.

Lemma getitem_not_dict v k st :
  (forall d, v <> JDict d) ->
  getitem v k st = (Raise (Exn TypeError [] None), st).
Proof.
  intro H. destruct v; try reflexivity. now destruct (H d).
Qed.

(** X5. A request answered by a frame that is no packet: the frame is
    consumed and the decoding error reaches the caller as it is:
    [JSONDecodeError] for text that is not JSON, [TypeError] for JSON that is
    not an object, [KeyError("type")] or [KeyError("data")] for an object
    without that key.  The registry is unchanged. *)
Theorem request_malformed_reply (route : string) (client_identifier : pykey)
    (kwargs : list (string * json)) (conn : handle) (t : text) (e : exn)
    (rest : list inbound) (st : state) :
  PyDict.get client_identifier (registry st) = Some conn ->
  send_error (net st conn) = None ->
  inbox (net st conn) = InText t :: rest ->
  malformed_reply t e ->
  exists st',
    request route client_identifier kwargs st = (Raise e, st') /\
    registry st' = registry st /\
    inbox (net st' conn) = rest.
Proof.
  intros Hget Hsend Hin Hbad.
  rewrite (request_after_send _ _ _ _ _ Hget Hsend).
  eexists. split.
  - unfold bind at 1.
    rewrite (_recv_text conn _ t rest) by (now rewrite inbox_called).
    destruct Hbad as [raw | d Hty | d ty Hty Hdata | v Hv].
    + reflexivity.
    + simpl json_loads. rewrite bind_ret. unfold bind, getitem.
      rewrite Hty. reflexivity.
    + simpl json_loads. rewrite bind_ret.
      rewrite (getitem_dict _ _ _ Hty), bind_ret.
      destruct (py_eq_str ty "FAILURE_RESPONSE"); unfold bind, getitem;
        rewrite Hdata; reflexivity.
    + simpl json_loads. rewrite bind_ret. unfold bind.
      rewrite getitem_not_dict by exact Hv. reflexivity.
  - split; [reflexivity|]. apply inbox_received.
Qed.

Lemma request_malformed_reply_witness :
  let st := mkState (mkServer [(KStr "A", 0%nat)] "s3cret" "0verride" false)
              (fun _ => mkWebsocket [InText (Garbled "pong")] None []) in
  exists st',
    request "ping" (KStr "A") [] st =
      (Raise (Exn JSONDecodeError [] None), st') /\
    registry st' = registry st /\
    inbox (net st' 0%nat) = [].
Proof.
  intro st.
  exact (request_malformed_reply "ping" (KStr "A") [] 0%nat (Garbled "pong")
           (Exn JSONDecodeError [] None) [] st eq_refl eq_refl eq_refl
           (ReplyNotJson "pong")).
Defined.

(** ** [request_all]: what it collects *)

Lemma closed_ok_is_not_disconnect e :
  exn_class_eqb (exn_cls e) ConnectionClosedOK = true ->
  exn_class_eqb (exn_cls e) WebSocketDisconnect = false.
Proof. destruct (exn_cls e); simpl; congruence. Qed.

(** A turn of the loop on a connection that has an answer stores it. *)
Lemma request_all_turn_answer route kwargs i conn results st v :
  answer_of (net st conn) = Some v ->
  fst (request_all_turn route kwargs i conn results st) =
    Ret (PyDict.set i v results).
Proof.
  unfold answer_of. intro H.
  unfold request_all_turn, try_except. unfold bind at 1.
  destruct (send_error (net st conn)) as [e|] eqn:Hsend.
  - rewrite (_send_fails _ _ _ e) by exact Hsend.
    destruct (exn_class_eqb (exn_cls e) ConnectionClosedOK); [|discriminate].
    injection H as <-. reflexivity.
  - rewrite _send_ok by exact Hsend. unfold bind at 1.
    destruct (inbox (net st conn)) as [|[t|e] rest] eqn:Hin; [discriminate| |].
    + destruct t as [[| b | z | s | l | d]|raw]; try discriminate.
      destruct (assoc_get "type" d) as [ty|] eqn:Hty; [|discriminate].
      destruct (assoc_get "data" d) as [data|] eqn:Hdata; [|discriminate].
      injection H as <-.
      rewrite (_recv_text conn _ (Encoded (JDict d)) rest)
        by (now rewrite inbox_called).
      simpl json_loads. rewrite bind_ret.
      rewrite (getitem_dict _ _ _ Hty), bind_ret.
      destruct (py_eq_str ty "FAILURE_RESPONSE");
        rewrite (getitem_dict _ _ _ Hdata), bind_ret; reflexivity.
    + destruct (exn_class_eqb (exn_cls e) ConnectionClosedOK) eqn:Hok;
        [|discriminate].
      injection H as <-.
      rewrite (_recv_raise conn _ e rest) by (now rewrite inbox_called).
      rewrite (closed_ok_is_not_disconnect e Hok), andb_false_r, Hok.
      reflexivity.
Qed.

Lemma answers_ext (n1 n2 : store) todo :
  (forall h, In h (map snd todo) -> n1 h = n2 h) ->
  answers n1 todo = answers n2 todo.
Proof.
  induction todo as [|[i conn] rest IH]; intro H; simpl; auto.
  rewrite (H conn) by (simpl; auto).
  rewrite IH; auto. intros h Hh. apply H. simpl. auto.
Qed.

Lemma answers_keys n todo answered :
  answers n todo = Some answered ->
  PyDict.keys answered = PyDict.keys todo.
Proof.
  revert answered. induction todo as [|[i conn] rest IH]; intros answered H.
  - injection H as <-. reflexivity.
  - simpl in H. destruct (answer_of (n conn)); [|discriminate].
    destruct (answers n rest) as [vs|]; [|discriminate].
    injection H as <-. unfold PyDict.keys in *. simpl. f_equal. now apply IH.
Qed.

Lemma request_all_loop_answers route kwargs todo :
  forall results st answered,
    NoDup (map snd todo) ->
    answers (net st) todo = Some answered ->
    fst (request_all_loop route kwargs todo results st) =
      Ret (fold_left (fun acc kv => PyDict.set (fst kv) (snd kv) acc)
             answered results).
Proof.
  induction todo as [|[i conn] rest IH]; intros results st answered Hnd H.
  - injection H as <-. reflexivity.
  - simpl in H.
    destruct (answer_of (net st conn)) as [v|] eqn:Hv; [|discriminate].
    destruct (answers (net st) rest) as [vs|] eqn:Hvs; [|discriminate].
    injection H as <-. simpl in Hnd. inversion Hnd as [|? ? Hnotin Hnd']; subst.
    simpl. unfold bind.
    pose proof (request_all_turn_answer route kwargs i conn results st v Hv)
      as Hturn.
    destruct (local_request_all_turn route kwargs i conn results st)
      as [_ Hframe].
    destruct (request_all_turn route kwargs i conn results st) as [o st1].
    simpl in Hturn, Hframe. subst o.
    apply IH; [exact Hnd'|].
    rewrite <- Hvs. apply answers_ext.
    intros h Hh. apply Hframe. intro Heq. subst h. contradiction.
Qed.

(** Keys decide absence, whatever the values. *)
Lemma get_none_keys {V1 V2 : Type} k (d1 : PyDict.t V1) :
  forall (d2 : PyDict.t V2),
    PyDict.keys d1 = PyDict.keys d2 ->
    PyDict.get k d1 = None -> PyDict.get k d2 = None.
Proof.
  induction d1 as [|[k1 v1] r1 IH]; intros [|[k2 v2] r2] Hk H;
    try discriminate; auto.
  unfold PyDict.keys in Hk. simpl in Hk. injection Hk as <- Hk.
  simpl in *. destruct (key_eqb k1 k); [discriminate|]. now apply IH.
Qed.

Lemma wf_keys {V1 V2 : Type} (d1 : PyDict.t V1) :
  forall (d2 : PyDict.t V2),
    PyDict.keys d1 = PyDict.keys d2 -> PyDict.wf d1 -> PyDict.wf d2.
Proof.
  induction d1 as [|[k1 v1] r1 IH]; intros [|[k2 v2] r2] Hk H;
    try discriminate; auto.
  unfold PyDict.keys in Hk. simpl in Hk. injection Hk as <- Hk.
  simpl in *. destruct H as [Habs Hwf]. split.
  - now apply (get_none_keys k1 r1).
  - now apply IH.
Qed.

Lemma set_fresh {V : Type} k (v : V) d :
  PyDict.get k d = None -> PyDict.set k v d = (d ++ [(k, v)])%list.
Proof.
  induction d as [|[k' v'] r IH]; simpl; auto.
  destruct (key_eqb k' k); [discriminate|]. intro H. now rewrite IH.
Qed.

Lemma get_app_none {V : Type} k (a b : PyDict.t V) :
  PyDict.get k (a ++ b)%list = None ->
  PyDict.get k a = None /\ PyDict.get k b = None.
Proof.
  induction a as [|[k' v'] r IH]; simpl; auto.
  destruct (key_eqb k' k); [discriminate|]. exact IH.
Qed.

Lemma wf_app_absent {V : Type} k (v : V) (a b : PyDict.t V) :
  PyDict.wf (a ++ (k, v) :: b)%list -> PyDict.get k a = None.
Proof.
  induction a as [|[k' v'] r IH]; simpl; auto.
  intros [Habs Hwf]. apply get_app_none in Habs as [_ Habs].
  simpl in Habs. destruct (key_eqb k k') eqn:E; [discriminate|].
  rewrite key_eqb_sym, E. now apply IH.
Qed.

Lemma fold_set_fresh {V : Type} (answered : PyDict.t V) :
  forall results,
    PyDict.wf (results ++ answered)%list ->
    fold_left (fun acc kv => PyDict.set (fst kv) (snd kv) acc) answered results
    = (results ++ answered)%list.
Proof.
  induction answered as [|[k v] r IH]; intros results H; simpl.
  - now rewrite app_nil_r.
  - rewrite (set_fresh k v results) by (eapply wf_app_absent; eauto).
    rewrite IH.
    + now rewrite <- app_assoc.
    + now rewrite <- app_assoc.
Qed.

(** X6. When the registered connections are distinct and each one either
    answers the request with a packet or has closed with
    [ConnectionClosedOK], [request_all] returns, under either transport, a
    mapping with one entry per registered identifier in registry order:
    the packet's [data], [RequestFailed(data)] for a FAILURE_RESPONSE, or
    [RequestFailed("Connection Closed")] for a closed connection. *)
Theorem request_all_collects (route : string) (kwargs : list (string * json))
    (st : state) (results : PyDict.t any) :
  PyDict.wf (registry st) ->
  NoDup (map snd (registry st)) ->
  answers (net st) (registry st) = Some results ->
  fst (request_all route kwargs st) = Ret results /\
  PyDict.keys results = PyDict.keys (registry st).
Proof.
  intros Hwf Hnd Hans. split.
  - unfold request_all. rewrite bind_get_self.
    unfold PyDict.items. fold (registry st).
    rewrite (request_all_loop_answers _ _ _ [] st results Hnd Hans).
    rewrite fold_set_fresh; [reflexivity|]. simpl.
    apply (wf_keys (registry st)); [|exact Hwf].
    symmetry. eapply answers_keys; eauto.
  - eapply answers_keys; eauto.
Qed.

Lemma request_all_collects_witness :
  let st := three_clients true (Exn ConnectionClosedOK [] None) in
  let results :=
    [(KStr "A", connection_closed);
     (KStr "B", Data (JStr "pong"));
     (KStr "C", Data (JStr "pong"))] in
  fst (request_all "ping" [] st) = Ret results /\
  PyDict.keys results = PyDict.keys (registry st).
Proof.
  intros st results.
  refine (request_all_collects "ping" [] st results _ _ eq_refl).
  - simpl. repeat split.
  - simpl. repeat constructor; simpl; intuition discriminate.
Defined.

(** ** The handshake: what it touches, and malformed packets *)

Lemma touches_ret {A : Type} conn (a : A) : touches_only conn (ret a).
Proof. intros st h Hh. reflexivity. Qed.

Lemma touches_raise {A : Type} conn e : touches_only conn (@raise A e).
Proof. intros st h Hh. reflexivity. Qed.

Lemma touches_bind {A B : Type} conn (m : M A) (k : A -> M B) :
  touches_only conn m -> (forall a, touches_only conn (k a)) ->
  touches_only conn (bind m k).
Proof.
  intros Hm Hk st h Hh. unfold bind.
  specialize (Hm st h Hh). destruct (m st) as [[a|e|] st1]; simpl in Hm; auto.
  rewrite (Hk a st1 h Hh). exact Hm.
Qed.

Lemma touches_try_except {A : Type} conn (m : M A) handles hd :
  touches_only conn m -> (forall e, touches_only conn (hd e)) ->
  touches_only conn (try_except m handles hd).
Proof.
  intros Hm Hh st h Hne. unfold try_except.
  specialize (Hm st h Hne). destruct (m st) as [[a|e|] st1]; simpl in Hm; auto.
  destruct (handles e); auto. rewrite (Hh e st1 h Hne). exact Hm.
Qed.

Lemma touches_local {A : Type} conn (m : M A) :
  local_to conn m -> touches_only conn m.
Proof. intros H st h Hh. now apply (H st). Qed.

Lemma touches_ws_close conn code reason :
  touches_only conn (ws_close conn code reason).
Proof. intros st h Hh. unfold ws_close; simpl. now apply upd_other. Qed.

Lemma touches_set_connections conn d : touches_only conn (set_connections d).
Proof. intros st h Hh. reflexivity. Qed.

Lemma touches_dict_get conn v k : touches_only conn (dict_get v k).
Proof.
  unfold dict_get. destruct v; try apply touches_raise.
  destruct (assoc_get k d); apply touches_ret.
Qed.

Lemma touches_hash_key conn v : touches_only conn (hash_key v).
Proof.
  unfold hash_key. destruct (hashable v); [apply touches_ret|apply touches_raise].
Qed.

Ltac touch_steps :=
  repeat first
    [ apply touches_ret | apply touches_raise | apply touches_ws_close
    | apply touches_set_connections | apply touches_dict_get
    | apply touches_hash_key
    | apply touches_local; first
        [ apply local__send | apply local_getitem | apply local_get_self ]
    | apply touches_bind; [|intro]
    | apply touches_try_except; [|intro]
    | match goal with |- touches_only _ (if ?c then _ else _) => destruct c end ].

(** X7. Whatever the packet and whatever the outcome, the handshake touches
    no websocket but the one it was handed: it never closes or writes to
    another registered connection, the one it supersedes included. *)
Theorem handshake_touches_its_connection_only (py_str : json -> string)
    (packet : json) (websocket h : handle) (st : state) :
  h <> websocket ->
  net (snd (parse_identify py_str packet websocket st)) h = net st h.
Proof.
  revert st h.
  change (touches_only websocket (parse_identify py_str packet websocket)).
  unfold parse_identify, parse_identify_try. touch_steps.
Qed.

Lemma handshake_touches_its_connection_only_witness :
  let st := mkState (mkServer [(KStr "A", 0%nat)] "s3cret" "0verride" false)
              (fun _ => fresh_websocket) in
  let p := identify "A" "s3cret" (Some "0verride") in
  PyDict.get (KStr "A") (registry (snd (parse_identify example_str p 1%nat st)))
    = Some 1%nat /\
  net (snd (parse_identify example_str p 1%nat st)) 0%nat = net st 0%nat.
Proof.
  intros st p. split; [reflexivity|].
  refine (handshake_touches_its_connection_only example_str p 1%nat 0%nat st _).
  discriminate.
Defined.

Lemma dict_get_not_dict v k st :
  (forall d, v <> JDict d) ->
  dict_get v k st = (Raise (Exn AttributeError [] None), st).
Proof.
  intro H. destruct v; try reflexivity. now destruct (H d).
Qed.

(** X8. A first packet the handshake cannot read (not an object, no
    ["type"], an IDENTIFY without ["data"], with [data] that is no object or
    has no ["secret_key"], or with an unhashable identifier) raises
    "Identify failed" from the interpreter's error ([AttributeError],
    [KeyError], [TypeError]) and leaves the whole state as it was: nothing
    is registered and the connection is neither closed nor written to. *)
Theorem malformed_identify_changes_nothing (py_str : json -> string)
    (p : json) (inner : exn) (ws : handle) (st : state) :
  malformed_identify (self st) p inner ->
  parse_identify py_str p ws st = (Raise (identify_failed inner), st).
Proof.
  intro H. apply parse_identify_raise.
  destruct H as [v Hv | d Hty | d Hty Hdata | d data Hty Hdata Hnd
                | d dd Hty Hdata Hsecret | p identifier secret override_key Hp Heq Hk].
  - unfold parse_identify_try, bind. now rewrite dict_get_not_dict.
  - unfold parse_identify_try. rewrite dict_get_dict, bind_ret.
    unfold bind, getitem. rewrite Hty. reflexivity.
  - unfold parse_identify_try. rewrite dict_get_dict, bind_ret.
    rewrite (getitem_dict _ _ _ Hty), bind_ret.
    change (py_ne_str (JStr "IDENTIFY") "IDENTIFY") with false. cbv iota.
    unfold bind, getitem. rewrite Hdata. reflexivity.
  - unfold parse_identify_try. rewrite dict_get_dict, bind_ret.
    rewrite (getitem_dict _ _ _ Hty), bind_ret.
    change (py_ne_str (JStr "IDENTIFY") "IDENTIFY") with false. cbv iota.
    rewrite (getitem_dict _ _ _ Hdata), bind_ret.
    unfold bind. now rewrite getitem_not_dict.
  - unfold parse_identify_try. rewrite dict_get_dict, bind_ret.
    rewrite (getitem_dict _ _ _ Hty), bind_ret.
    change (py_ne_str (JStr "IDENTIFY") "IDENTIFY") with false. cbv iota.
    rewrite (getitem_dict _ _ _ Hdata), bind_ret.
    unfold getitem at 1. rewrite Hsecret. reflexivity.
  - eapply try_unhashable; eauto.
Qed.

Lemma malformed_identify_changes_nothing_witness :
  let st := mkState (mkServer [] "s3cret" "0verride" false)
              (fun _ => fresh_websocket) in
  let p := JDict [("identifier", JStr "A"); ("type", JStr "IDENTIFY")] in
  parse_identify example_str p 1%nat st =
    (Raise (identify_failed (Exn KeyError [JStr "data"] None)), st).
Proof.
  intros st p.
  exact (malformed_identify_changes_nothing example_str p
           (Exn KeyError [JStr "data"] None) 1%nat st
           (IdentifyNoData (self st)
              [("identifier", JStr "A"); ("type", JStr "IDENTIFY")]
              eq_refl eq_refl)).
Defined.

(** ** Handshake, dispatch and [disconnect] together *)

(** [request] on a connection that takes the write and has a packet next. *)
Lemma request_answered route client_identifier kwargs conn d ty data rest st :
  PyDict.get client_identifier (registry st) = Some conn ->
  send_error (net st conn) = None ->
  inbox (net st conn) = InText (Encoded (JDict d)) :: rest ->
  assoc_get "type" d = Some ty ->
  assoc_get "data" d = Some data ->
  request route client_identifier kwargs st =
    ((if py_eq_str ty "FAILURE_RESPONSE"
      then Raise (Exn RequestFailed [data] None)
      else Ret data),
     received
       (called st conn
          (send_call (self st) (request_frame client_identifier route kwargs)))
       conn rest).
Proof.
  intros Hget Hsend Hin Hty Hdata.
  rewrite (request_after_send _ _ _ _ _ Hget Hsend).
  unfold bind at 1.
  rewrite (_recv_text conn _ (Encoded (JDict d)) rest)
    by (now rewrite inbox_called).
  simpl json_loads. rewrite bind_ret.
  rewrite (getitem_dict _ _ _ Hty), bind_ret.
  rewrite (getitem_dict _ _ _ Hdata).
  destruct (py_eq_str ty "FAILURE_RESPONSE"); reflexivity.
Qed.

(** X9. An accepted IDENTIFY whose acknowledgment cannot be written: the
    handshake raises "Identify failed" from the transport's exception, yet
    the identifier is already bound to the connection and stays so, and the
    connection is not closed.  A request to that identifier then fails
    with the transport's exception, not with [UnknownClient]. *)
Theorem failed_acknowledgment_stays_registered (py_str : json -> string)
    (p identifier secret override_key : json) (k : pykey) (ws : handle)
    (e : exn) (route : string) (kwargs : list (string * json)) (st : state) :
  identify_packet p identifier secret override_key ->
  py_ne_str secret (_secret_key (self st)) = false ->
  hashable identifier = Some k ->
  (if PyDict.contains k (registry st)
   then override_rejected override_key (self st)
   else false) = false ->
  send_error (net st ws) = Some e ->
  exists st',
    parse_identify py_str p ws st = (Raise (identify_failed e), st') /\
    PyDict.get k (registry st') = Some ws /\
    net st' = net st /\
    request route k kwargs st' = (Raise e, st').
Proof.
  intros Hp Heq Hk Hacc Hsend.
  exists (registered st k ws).
  split; [|split; [|split]].
  - rewrite (accepted_run py_str _ _ _ _ _ ws st Hp Heq Hk Hacc), Hsend.
    reflexivity.
  - apply get_set_same.
  - reflexivity.
  - apply (request_unwritable route k kwargs ws e).
    + apply get_set_same.
    + exact Hsend.
Qed.

Lemma failed_acknowledgment_stays_registered_witness :
  let gone := Exn ConnectionClosedError [] None in
  let st := mkState (mkServer [] "s3cret" "0verride" false)
              (fun _ => mkWebsocket [] (Some gone) []) in
  let p := identify "A" "s3cret" None in
  exists st',
    parse_identify example_str p 1%nat st = (Raise (identify_failed gone), st') /\
    PyDict.get (KStr "A") (registry st') = Some 1%nat /\
    net st' = net st /\
    request "ping" (KStr "A") [] st' = (Raise gone, st').
Proof.
  intros gone st p.
  refine (failed_acknowledgment_stays_registered example_str p (JStr "A")
            (JStr "s3cret") JNull (KStr "A") 1%nat gone "ping" [] st
            _ eq_refl eq_refl eq_refl eq_refl).
  exact (IdentifyPacket
           [("identifier", JStr "A"); ("type", JStr "IDENTIFY");
            ("data", JDict [("secret_key", JStr "s3cret")])]
           [("secret_key", JStr "s3cret")] (JStr "s3cret")
           eq_refl eq_refl eq_refl).
Defined.

(** X10. Handshake then request: after an accepted IDENTIFY on a connection
    that takes writes, a request to the identifier is written to that very
    connection, right after the acknowledgment, and is answered by the next
    packet the connection delivers. *)
Theorem identify_then_request (py_str : json -> string)
    (p identifier secret override_key : json) (k : pykey) (ws : handle)
    (route : string) (kwargs : list (string * json))
    (d : list (string * json)) (ty data : json) (rest : list inbound)
    (st : state) :
  identify_packet p identifier secret override_key ->
  py_ne_str secret (_secret_key (self st)) = false ->
  hashable identifier = Some k ->
  (if PyDict.contains k (registry st)
   then override_rejected override_key (self st)
   else false) = false ->
  send_error (net st ws) = None ->
  inbox (net st ws) = InText (Encoded (JDict d)) :: rest ->
  assoc_get "type" d = Some ty ->
  assoc_get "data" d = Some data ->
  exists st1 st2,
    parse_identify py_str p ws st = (Ret identifier, st1) /\
    request route k kwargs st1 =
      ((if py_eq_str ty "FAILURE_RESPONSE"
        then Raise (Exn RequestFailed [data] None)
        else Ret data),
       st2) /\
    calls (net st2 ws) =
      (calls (net st ws)
       ++ [send_call (self st)
             (json_dumps (Packet identifier (JStr "IDENTIFY") JNull));
           send_call (self st) (request_frame k route kwargs)])%list.
Proof.
  intros Hp Heq Hk Hacc Hsend Hin Hty Hdata.
  set (st1 := called (registered st k ws) ws
                (send_call (self st)
                   (json_dumps (Packet identifier (JStr "IDENTIFY") JNull)))).
  assert (Hget : PyDict.get k (registry st1) = Some ws).
  { unfold st1. apply get_set_same. }
  assert (Hsend1 : send_error (net st1 ws) = None).
  { unfold st1. rewrite send_error_called. exact Hsend. }
  assert (Hin1 : inbox (net st1 ws) = InText (Encoded (JDict d)) :: rest).
  { unfold st1. rewrite inbox_called. exact Hin. }
  exists st1. eexists. split; [|split].
  - rewrite (accepted_run py_str _ _ _ _ _ ws st Hp Heq Hk Hacc), Hsend.
    reflexivity.
  - apply (request_answered route k kwargs ws d ty data rest st1
             Hget Hsend1 Hin1 Hty Hdata).
  - rewrite calls_received, calls_called. unfold st1.
    rewrite (calls_called (registered st k ws)). simpl.
    now rewrite <- app_assoc.
Qed.

Lemma identify_then_request_witness :
  let reply := Packet (JStr "A") (JStr "RESPONSE") (JStr "pong") in
  let st := mkState (mkServer [] "s3cret" "0verride" false)
              (fun _ => mkWebsocket [InText (Encoded reply)] None []) in
  let p := identify "A" "s3cret" None in
  exists st1 st2,
    parse_identify example_str p 1%nat st = (Ret (JStr "A"), st1) /\
    request "ping" (KStr "A") [] st1 = (Ret (JStr "pong"), st2) /\
    calls (net st2 1%nat) =
      (calls (net st 1%nat)
       ++ [send_call (self st)
             (json_dumps (Packet (JStr "A") (JStr "IDENTIFY") JNull));
           send_call (self st) (request_frame (KStr "A") "ping" [])])%list.
Proof.
  intros reply st p.
  refine (identify_then_request example_str p (JStr "A") (JStr "s3cret") JNull
            (KStr "A") 1%nat "ping" []
            [("identifier", JStr "A"); ("type", JStr "RESPONSE");
             ("data", JStr "pong")]
            (JStr "RESPONSE") (JStr "pong") [] st
            _ eq_refl eq_refl eq_refl eq_refl eq_refl eq_refl eq_refl).
  exact (IdentifyPacket
           [("identifier", JStr "A"); ("type", JStr "IDENTIFY");
            ("data", JDict [("secret_key", JStr "s3cret")])]
           [("secret_key", JStr "s3cret")] (JStr "s3cret")
           eq_refl eq_refl eq_refl).
Defined.

(** X11. [disconnect] then handshake: once an identifier has been
    disconnected, an IDENTIFY for it with the configured secret key is
    accepted on a connection that takes writes whatever override key it
    carries, none included, and binds the identifier to the new
    connection. *)
Theorem disconnect_then_identify (py_str : json -> string)
    (p identifier secret override_key : json) (k : pykey) (ws : handle)
    (st : state) :
  identify_packet p identifier secret override_key ->
  py_ne_str secret (_secret_key (self st)) = false ->
  hashable identifier = Some k ->
  send_error (net st ws) = None ->
  exists st',
    parse_identify py_str p ws (snd (disconnect k st)) = (Ret identifier, st') /\
    PyDict.get k (registry st') = Some ws /\
    registry st' = PyDict.set k ws (PyDict.pop k (registry st)).
Proof.
  intros Hp Heq Hk Hsend.
  set (st0 := snd (disconnect k st)).
  assert (Hreg0 : registry st0 = PyDict.pop k (registry st)) by reflexivity.
  assert (Hacc : (if PyDict.contains k (registry st0)
                  then override_rejected override_key (self st0)
                  else false) = false).
  { assert (Hc : PyDict.contains k (registry st0) = false).
    { apply contains_false_get. rewrite Hreg0. apply get_pop_same. }
    now rewrite Hc. }
  eexists. split; [|split].
  - rewrite (accepted_run py_str _ _ _ _ _ ws st0 Hp Heq Hk Hacc).
    change (net st0 ws) with (net st ws). rewrite Hsend. reflexivity.
  - apply get_set_same.
  - reflexivity.
Qed.

Lemma disconnect_then_identify_witness :
  let st := mkState (mkServer [(KStr "A", 0%nat)] "s3cret" "0verride" false)
              (fun _ => fresh_websocket) in
  let p := identify "A" "s3cret" None in
  exists st',
    parse_identify example_str p 1%nat (snd (disconnect (KStr "A") st)) =
      (Ret (JStr "A"), st') /\
    PyDict.get (KStr "A") (registry st') = Some 1%nat /\
    registry st' =
      PyDict.set (KStr "A") 1%nat (PyDict.pop (KStr "A") (registry st)).
Proof.
  intros st p.
  refine (disconnect_then_identify example_str p (JStr "A") (JStr "s3cret")
            JNull (KStr "A") 1%nat st _ eq_refl eq_refl eq_refl).
  exact (IdentifyPacket
           [("identifier", JStr "A"); ("type", JStr "IDENTIFY");
            ("data", JDict [("secret_key", JStr "s3cret")])]
           [("secret_key", JStr "s3cret")] (JStr "s3cret")
           eq_refl eq_refl eq_refl).
Defined.

(** The [try] block leaves the registry as it was or binds the key of the
    packet to the connection. *)
Lemma parse_identify_try_binds py_str p ws st r st' :
  parse_identify_try py_str p ws st = (r, st') ->
  registry st' = registry st \/
  exists k, packet_key p = Some k /\
            registry st' = PyDict.set k ws (registry st).
Proof.
  intro H.
  destruct p as [| b | z | s | l | d];
    try (injection H as <- <-; left; reflexivity).
  unfold parse_identify_try in H. rewrite dict_get_dict, bind_ret in H.
  unfold getitem at 1 in H.
  destruct (assoc_get "type" d) as [ty|];
    [|injection H as <- <-; left; reflexivity].
  rewrite bind_ret in H.
  destruct (py_ne_str ty "IDENTIFY");
    [injection H as <- <-; left; reflexivity|].
  unfold getitem at 1 in H.
  destruct (assoc_get "data" d) as [data|] eqn:Hdata;
    [|injection H as <- <-; left; reflexivity].
  rewrite bind_ret in H.
  destruct data as [| b | z | s | l | dd];
    try (injection H as <- <-; left; reflexivity).
  unfold getitem at 1 in H.
  destruct (assoc_get "secret_key" dd) as [secret|];
    [|injection H as <- <-; left; reflexivity].
  rewrite bind_ret, bind_get_self in H.
  destruct (py_ne_str secret (_secret_key (self st)));
    [injection H as <- <-; left; reflexivity|].
  rewrite (getitem_dict _ _ _ Hdata), bind_ret, dict_get_dict, bind_ret in H.
  unfold hash_key in H.
  destruct (hashable (field_or_none "identifier" d)) as [k|] eqn:Hk;
    [|injection H as <- <-; left; reflexivity].
  rewrite bind_ret, bind_get_self in H.
  destruct (if PyDict.contains k (_connections (self st))
            then _ else false);
    [injection H as <- <-; left; reflexivity|].
  rewrite bind_set_connections in H. right. exists k.
  split; [exact Hk|].
  unfold bind in H.
  destruct (send_error (net st ws)) as [e|] eqn:Hsend.
  - rewrite (_send_fails _ _ _ e) in H by exact Hsend.
    injection H as <- <-. reflexivity.
  - rewrite _send_ok in H by exact Hsend.
    injection H as <- <-. reflexivity.
Qed.

(** X12. Whatever the packet and the outcome, the handshake removes no
    entry of the registry (a registered identifier stays registered), and
    the only entry it can change is the one of the packet's identifier:
    every key that is not equal to it, as [dict] keys compare, keeps its
    connection. *)
Theorem handshake_binds_only_its_identifier (py_str : json -> string)
    (packet : json) (websocket : handle) (st : state) :
  let st' := snd (parse_identify py_str packet websocket st) in
  (forall k2, PyDict.contains k2 (registry st) = true ->
              PyDict.contains k2 (registry st') = true) /\
  (forall k2,
     match packet_key packet with
     | Some k => key_eqb k k2 = false
     | None => True
     end ->
     PyDict.get k2 (registry st') = PyDict.get k2 (registry st)).
Proof.
  assert (Hb : registry (snd (parse_identify py_str packet websocket st))
               = registry st \/
               exists k, packet_key packet = Some k /\
                 registry (snd (parse_identify py_str packet websocket st))
                 = PyDict.set k websocket (registry st)).
  { unfold parse_identify, try_except.
    destruct (parse_identify_try py_str packet websocket st) as [r st1] eqn:H.
    apply parse_identify_try_binds in H. destruct r; exact H. }
  cbv zeta. split.
  - intros k2 Hin. destruct Hb as [-> | [k [_ ->]]]; [exact Hin|].
    rewrite contains_set, Hin. apply orb_true_r.
  - intros k2 Hk2. destruct Hb as [-> | [k [Hk ->]]]; [reflexivity|].
    rewrite Hk in Hk2. now apply get_set_other.
Qed.

Lemma handshake_binds_only_its_identifier_witness :
  let st := mkState (mkServer [(KStr "A", 0%nat); (KStr "B", 2%nat)]
                       "s3cret" "0verride" false)
              (fun _ => fresh_websocket) in
  let p := identify "A" "s3cret" (Some "0verride") in
  PyDict.get (KStr "A") (registry (snd (parse_identify example_str p 1%nat st)))
    = Some 1%nat /\
  PyDict.get (KStr "B") (registry (snd (parse_identify example_str p 1%nat st)))
    = PyDict.get (KStr "B") (registry st).
Proof.
  intros st p. split; [reflexivity|].
  exact (proj2 (handshake_binds_only_its_identifier example_str p 1%nat st)
           (KStr "B") eq_refl).
Defined.

(** X13. A server as [__init__] leaves it knows no client: a request for
    any identifier raises [UnknownClient] and [request_all] returns the
    empty mapping, both without touching any websocket; and the first
    IDENTIFY that carries the constructor's secret key, on a connection that
    takes the write, is accepted whatever override key it carries and makes
    the registry the single entry for its identifier. *)
Theorem new_server_first_handshake (py_str : json -> string)
    (using_fastapi : bool) (override_key : option string)
    (secret_key token_hex : string) (n : store) (route : string)
    (client_identifier : pykey) (kwargs : list (string * json))
    (p identifier packet_override : json) (k : pykey) (ws : handle) :
  let st := mkState (Server_init using_fastapi override_key secret_key token_hex)
              n in
  identify_packet p identifier (JStr secret_key) packet_override ->
  hashable identifier = Some k ->
  send_error (n ws) = None ->
  request route client_identifier kwargs st =
    (Raise (Exn UnknownClient [] None), st) /\
  request_all route kwargs st = (Ret [], st) /\
  exists st',
    parse_identify py_str p ws st = (Ret identifier, st') /\
    registry st' = [(k, ws)].
Proof.
  intros st Hp Hk Hsend.
  split; [reflexivity|]. split; [reflexivity|].
  assert (Heq : py_ne_str (JStr secret_key) (_secret_key (self st)) = false).
  { unfold py_ne_str. simpl. now rewrite String.eqb_refl. }
  eexists. split.
  - rewrite (accepted_run py_str _ _ _ _ _ ws st Hp Heq Hk eq_refl).
    change (net st ws) with (n ws). rewrite Hsend. reflexivity.
  - reflexivity.
Qed.

Lemma new_server_first_handshake_witness :
  let st := mkState (Server_init false None "s3cret" "c0ffee")
              (fun _ => fresh_websocket) in
  let p := identify "A" "s3cret" None in
  request "ping" (KStr "A") [] st = (Raise (Exn UnknownClient [] None), st) /\
  request_all "ping" [] st = (Ret [], st) /\
  exists st',
    parse_identify example_str p 1%nat st = (Ret (JStr "A"), st') /\
    registry st' = [(KStr "A", 1%nat)].
Proof.
  intros st p.
  refine (new_server_first_handshake example_str false None "s3cret" "c0ffee"
            (fun _ => fresh_websocket) "ping" (KStr "A") [] p (JStr "A") JNull
            (KStr "A") 1%nat _ eq_refl eq_refl).
  exact (IdentifyPacket
           [("identifier", JStr "A"); ("type", JStr "IDENTIFY");
            ("data", JDict [("secret_key", JStr "s3cret")])]
           [("secret_key", JStr "s3cret")] (JStr "s3cret")
           eq_refl eq_refl eq_refl).
Defined.
